(** * TrackingTime MCP server: the transport client and the tool boundary

    A shallow embedding of [api-client.ts] (module [ApiClient]) and of the
    tool handlers of [tools.ts] (module [Tools]), over a small model of the
    JavaScript platform they run on (module [Js]).

    Conventions of the embedding:
    - an [async] function is a function into [Js.completion]: a promise that
      fulfils is [Return], one that rejects is [Throw];
    - [fetch] is the one source of non-determinism; it is a variable of the
      sections below and an explicit argument of every function afterwards;
    - a JavaScript string is a [string] holding the UTF-8 bytes of its text;
    - a JavaScript number is an integer [Z] (HTTP and envelope statuses are
      integers; fractional numbers are outside the model). *)

From Stdlib Require Import ZArith NArith String Ascii List Bool Lia DecimalString.
From Stdlib Require Import DecimalZ DecimalPos.
Import ListNotations.
Local Open Scope string_scope.
Set Warnings "-register-all".

(* ================================================================== *)
(** ** The platform *)
(* ================================================================== *)

Module Js.

(** Values that come out of [JSON.parse], plus [undefined]. The fields of an
    object are kept in the order of its keys. *)
Inductive value : Type :=
| VUndefined
| VNull
| VBool (b : bool)
| VNum (n : Z)
| VStr (s : string)
| VArr (items : list value)
| VObj (fields : list (string * value)).

(** What a [throw] or a rejected promise can carry. The first three
    constructors are instances of [Error]; [DOMException] is kept apart
    because the client tests for it. *)
Inductive thrown : Type :=
| TrackingTimeError (status : Z) (message : string)
| DOMException (name message : string)
| Error (name message : string)
| Thrown (v : value).

Inductive completion (A : Type) : Type :=
| Return (a : A)
| Throw (e : thrown).

Arguments Return {A} a.
Arguments Throw {A} e.

Definition bind {A B : Type} (c : completion A) (k : A -> completion B) : completion B :=
  match c with
  | Return a => k a
  | Throw e => Throw e
  end.

(** [try { c } catch (err) { h err }] *)
Definition try_catch {A : Type} (c : completion A) (h : thrown -> completion A) : completion A :=
  match c with
  | Return a => Return a
  | Throw e => h e
  end.

Definition instanceof_Error (e : thrown) : bool :=
  match e with
  | Thrown _ => false
  | _ => true
  end.

Definition instanceof_DOMException (e : thrown) : bool :=
  match e with
  | DOMException _ _ => true
  | _ => false
  end.

Definition instanceof_TrackingTimeError (e : thrown) : bool :=
  match e with
  | TrackingTimeError _ _ => true
  | _ => false
  end.

(** [err.name] and [err.message] of an [Error] instance. *)
Definition error_name (e : thrown) : string :=
  match e with
  | TrackingTimeError _ _ => "TrackingTimeError"
  | DOMException n _ => n
  | Error n _ => n
  | Thrown _ => EmptyString
  end.

Definition error_message (e : thrown) : string :=
  match e with
  | TrackingTimeError _ m => m
  | DOMException _ m => m
  | Error _ m => m
  | Thrown _ => EmptyString
  end.

(** Decimal rendering of an integer, as a template literal produces it. *)
Definition number_to_string (n : Z) : string :=
  NilZero.string_of_int (Z.to_int n).

(** [hay.includes(needle)] *)
Fixpoint includes (needle hay : string) : bool :=
  if prefix needle hay then true
  else match hay with
       | EmptyString => false
       | String _ rest => includes needle rest
       end.

(** Truthiness, as [if (v)], [v || w] and [v ? a : b] test it. *)
Definition truthy (v : value) : bool :=
  match v with
  | VUndefined | VNull => false
  | VBool b => b
  | VNum n => negb (n =? 0)%Z
  | VStr s => negb (s =? EmptyString)
  | VArr _ | VObj _ => true
  end.

Definition truthy_string (s : string) : bool := negb (s =? EmptyString).

(** [String(v)] *)
Fixpoint to_String (v : value) : string :=
  match v with
  | VUndefined => "undefined"
  | VNull => "null"
  | VBool true => "true"
  | VBool false => "false"
  | VNum n => number_to_string n
  | VStr s => s
  | VArr items =>
      String.concat ","
        (map (fun x => match x with
                       | VUndefined | VNull => EmptyString
                       | _ => to_String x
                       end) items)
  | VObj _ => "[object Object]"
  end.

(** [String(err)] for anything caught: [Error.prototype.toString] on an
    [Error] instance, [to_String] on any other value. *)
Definition String_of_thrown (e : thrown) : string :=
  match e with
  | Thrown v => to_String v
  | _ =>
      if negb (truthy_string (error_name e)) then error_message e
      else if negb (truthy_string (error_message e)) then error_name e
      else error_name e ++ ": " ++ error_message e
  end.

Definition chr (n : N) : string := String (ascii_of_N n) EmptyString.

Definition hex_digit (upper : bool) (n : N) : string :=
  if (n <? 10)%N then chr (48 + n)
  else if upper then chr (55 + n) else chr (87 + n).

(** *** JSON.stringify *)

Definition json_escape (c : ascii) : string :=
  let n := N_of_ascii c in
  if (n =? 34)%N then "\" ++ chr 34
  else if (n =? 92)%N then "\\"
  else if (n =? 8)%N then "\b"
  else if (n =? 9)%N then "\t"
  else if (n =? 10)%N then "\n"
  else if (n =? 12)%N then "\f"
  else if (n =? 13)%N then "\r"
  else if (n <? 32)%N then "\u00" ++ hex_digit false (n / 16) ++ hex_digit false (n mod 16)
  else String c EmptyString.

Fixpoint json_escape_all (s : string) : string :=
  match s with
  | EmptyString => EmptyString
  | String c rest => json_escape c ++ json_escape_all rest
  end.

Definition json_quote (s : string) : string :=
  chr 34 ++ json_escape_all s ++ chr 34.

Definition json_wrap (opening closing gap indent : string) (parts : list string) : string :=
  match parts with
  | [] => opening ++ closing
  | _ =>
      if gap =? EmptyString
      then opening ++ String.concat "," parts ++ closing
      else
        let inner := indent ++ gap in
        opening ++ chr 10 ++ inner
          ++ String.concat ("," ++ chr 10 ++ inner) parts
          ++ chr 10 ++ indent ++ closing
  end.

(** The serialisation of a value under indentation unit [gap], at the current
    indentation [indent]; [None] is the [undefined] that [JSON.stringify]
    gives for [undefined]. *)
Fixpoint json_serialize (gap indent : string) (v : value) : option string :=
  match v with
  | VUndefined => None
  | VNull => Some "null"
  | VBool true => Some "true"
  | VBool false => Some "false"
  | VNum n => Some (number_to_string n)
  | VStr s => Some (json_quote s)
  | VArr items =>
      Some (json_wrap "[" "]" gap indent
              (map (fun x => match json_serialize gap (indent ++ gap) x with
                             | Some s => s
                             | None => "null"
                             end) items))
  | VObj fields =>
      Some (json_wrap "{" "}" gap indent
              (flat_map (fun kv => match kv with
                                   | (k, x) =>
                                       match json_serialize gap (indent ++ gap) x with
                                       | Some s =>
                                           [json_quote k ++ ":"
                                              ++ (if gap =? EmptyString then EmptyString else " ")
                                              ++ s]
                                       | None => []
                                       end
                                   end) fields))
  end.

(** [JSON.stringify(v)] and [JSON.stringify(v, null, 2)] *)
Definition JSON_stringify (v : value) : option string :=
  json_serialize EmptyString EmptyString v.

Definition JSON_stringify_indent2 (v : value) : option string :=
  json_serialize "  " EmptyString v.

(** *** URLSearchParams *)

Definition is_alnum (n : N) : bool :=
  ((48 <=? n) && (n <=? 57) || (65 <=? n) && (n <=? 90) || (97 <=? n) && (n <=? 122))%N.

(** One byte under the [application/x-www-form-urlencoded] serialiser. *)
Definition urlencode_byte (c : ascii) : string :=
  let n := N_of_ascii c in
  if (n =? 32)%N then "+"
  else if is_alnum n || (n =? 42)%N || (n =? 45)%N || (n =? 46)%N || (n =? 95)%N
       then String c EmptyString
       else "%" ++ hex_digit true (n / 16) ++ hex_digit true (n mod 16).

Fixpoint urlencode (s : string) : string :=
  match s with
  | EmptyString => EmptyString
  | String c rest => urlencode_byte c ++ urlencode rest
  end.

(** [new URLSearchParams(params).toString()] for a record of strings. *)
Definition URLSearchParams_toString (params : list (string * string)) : string :=
  String.concat "&" (map (fun kv => urlencode (fst kv) ++ "=" ++ urlencode (snd kv)) params).

(** *** Buffer.from(s).toString("base64") *)

Definition base64_alphabet : string :=
  "ABCDEFGHIJKLMNOPQRSTUVWXYZabcdefghijklmnopqrstuvwxyz0123456789+/".

Definition base64_digit (n : N) : string :=
  match String.get (N.to_nat n) base64_alphabet with
  | Some c => String c EmptyString
  | None => "="
  end.

Fixpoint base64_bytes (bs : list N) : string :=
  match bs with
  | [] => EmptyString
  | [a] =>
      base64_digit (a / 4) ++ base64_digit ((a mod 4) * 16) ++ "=="
  | [a; b] =>
      base64_digit (a / 4) ++ base64_digit ((a mod 4) * 16 + b / 16)
        ++ base64_digit ((b mod 16) * 4) ++ "="
  | a :: b :: c :: rest =>
      base64_digit (a / 4) ++ base64_digit ((a mod 4) * 16 + b / 16)
        ++ base64_digit ((b mod 16) * 4 + c / 64) ++ base64_digit (c mod 64)
        ++ base64_bytes rest
  end.

Definition base64 (s : string) : string :=
  base64_bytes (map N_of_ascii (list_ascii_of_string s)).

End Js.

Import Js.

Declare Scope completion_scope.
Delimit Scope completion_scope with completion.
Notation "x <- c ;; k" := (Js.bind c (fun x => k))
  (at level 61, c at next level, right associativity) : completion_scope.
Local Open Scope completion_scope.

(* ================================================================== *)
(** ** api-client.ts *)
(* ================================================================== *)

Module ApiClient.

(** [process.env], after [dotenv.config] has merged the [.env] file in. *)
Definition environment : Type := string -> option string.

(** [!v] for an environment variable. *)
Definition not_set (v : option string) : bool :=
  match v with
  | None => true
  | Some s => negb (truthy_string s)
  end.

(** An environment variable inside a template literal. *)
Definition env_value (v : option string) : string :=
  match v with
  | Some s => s
  | None => "undefined"
  end.

(** The constants the module binds when it is evaluated. *)
Record constants : Type := {
  TT_APP_PASSWORD : string;
  TT_ACCOUNT_ID : string
}.

(** Lines 10-18: the evaluation of the module reads the two variables and
    throws when one of them is not set. *)
Definition evaluate (env : environment) : completion constants :=
  let TT_APP_PASSWORD := env "TT_APP_PASSWORD" in
  let TT_ACCOUNT_ID := env "TT_ACCOUNT_ID" in
  if not_set TT_APP_PASSWORD || not_set TT_ACCOUNT_ID
  then Throw (Error "Error"
                ("Missing required env vars: TT_APP_PASSWORD, TT_ACCOUNT_ID. "
                   ++ "Create an App Password in TrackingTime: Manage → User Settings → Apps & Integrations"))
  else Return {| TT_APP_PASSWORD := env_value TT_APP_PASSWORD;
                 TT_ACCOUNT_ID := env_value TT_ACCOUNT_ID |}.

Definition REQUEST_TIMEOUT_MS : N := 30000.

(** [interface TTResponse]; [message] is [None] when the body carries no
    such field. *)
Record TTResponseHead : Type := {
  status : Z;
  message : option string
}.

Record TTResponse : Type := {
  response : TTResponseHead;
  data : value
}.

(** The signal of the [AbortController] made for one request: the timer set
    beside it aborts it after the given number of milliseconds. *)
Record AbortSignal : Type := {
  aborts_after_ms : N
}.

Record RequestInit : Type := {
  method : string;
  signal : AbortSignal;
  headers : list (string * string);
  body : option string
}.

(** What the client reads of a [Response]: [res.status],
    [res.headers.get("content-type")], [res.text()] and [res.json()] cast to
    [TTResponse]. *)
Record Response : Type := {
  res_status : Z;
  content_type : option string;
  res_text : completion string;
  res_json : completion TTResponse
}.

(** [res.ok] *)
Definition ok (res : Response) : bool :=
  ((200 <=? res_status res) && (res_status res <=? 299))%Z.

Definition ERROR_HINTS : list (Z * string) :=
  [ (401%Z, "Check that your App Password is correct and hasn't been revoked.");
    (403%Z, "Your account may not have permission for this action.");
    (502%Z, "This usually means a timer is already running. "
              ++ "Use stop_running_task=true on tt_start_timer, or call tt_stop_timer first.") ].

(** [table[key]] *)
Fixpoint lookup (key : Z) (table : list (Z * string)) : option string :=
  match table with
  | [] => None
  | (k, v) :: rest => if (k =? key)%Z then Some v else lookup key rest
  end.

(** [endpoint.replace(/^\//, ...)] with the empty string as replacement: a
    slash at the very start of the endpoint is dropped, and nothing else. *)
Definition strip_leading_slash (endpoint : string) : string :=
  match endpoint with
  | String c rest => if Ascii.eqb c "/" then rest else endpoint
  | EmptyString => endpoint
  end.

Section Client.

Variable m : constants.
Variable fetch : string -> RequestInit -> completion Response.

Definition BASE_URL : string :=
  "https://app.trackingtime.co/api/v4/" ++ TT_ACCOUNT_ID m.

Definition AUTH_HEADER : string :=
  "Basic " ++ base64 ("API_TOKEN:" ++ TT_APP_PASSWORD m).

(** Lines 53-58 and 119-124: the URL both functions build. *)
Definition request_url (endpoint : string) (params : option (list (string * string))) : string :=
  let url := BASE_URL ++ "/" ++ strip_leading_slash endpoint in
  match params with
  | Some ps =>
      if (0 <? length ps)%nat
      then url ++ "?" ++ URLSearchParams_toString ps
      else url
  | None => url
  end.

(** Lines 60-71 and 126-137. *)
Definition base_options (method : string) : RequestInit :=
  {| method := method;
     signal := {| aborts_after_ms := REQUEST_TIMEOUT_MS |};
     headers := [ ("Authorization", AUTH_HEADER);
                  ("Content-Type", "application/json");
                  ("User-Agent", "TrackingTimeMCP/1.0") ];
     body := None |}.

(** Lines 73-75. *)
Definition request_options (method : string) (body : option value) : RequestInit :=
  let options := base_options method in
  match body with
  | Some b =>
      if truthy b && ((method =? "POST") || (method =? "PUT"))
      then {| method := ApiClient.method options;
              signal := signal options;
              headers := headers options;
              body := JSON_stringify b |}
      else options
  | None => options
  end.

(** Lines 80-84 and 142-146: the [catch] clause around [fetch]. *)
Definition on_fetch_rejected (err : thrown) : completion Response :=
  if instanceof_DOMException err && (error_name err =? "AbortError")
  then Throw (TrackingTimeError 0 "Request timed out after 30s. TrackingTime may be unavailable.")
  else Throw (TrackingTimeError 0
                ("Network error: "
                   ++ (if instanceof_Error err then error_message err
                       else String_of_thrown err))).

Definition apiRequest (method endpoint : string)
    (params : option (list (string * string))) (body : option value) : completion value :=
  let url := request_url endpoint params in
  let options := request_options method body in
  res <- try_catch (fetch url options) on_fetch_rejected ;;
  let contentType :=
    match content_type res with
    | Some c => c
    | None => EmptyString
    end in
  if negb (includes "application/json" contentType)
  then Throw (TrackingTimeError (res_status res)
                ("TrackingTime returned HTTP " ++ number_to_string (res_status res)
                   ++ " with non-JSON response. The service may be temporarily unavailable."))
  else
    json <- res_json res ;;
    if negb (status (response json) =? 200)%Z
    then
      let fallback := "API error (status " ++ number_to_string (status (response json)) ++ ")" in
      let apiMessage :=
        match message (response json) with
        | Some s => if truthy_string s then s else fallback
        | None => fallback
        end in
      let hint := lookup (status (response json)) ERROR_HINTS in
      let message :=
        match hint with
        | Some h => if truthy_string h then apiMessage ++ ". " ++ h else apiMessage
        | None => apiMessage
        end in
      Throw (TrackingTimeError (status (response json)) message)
    else Return (data json).

Definition rawApiRequest (method endpoint : string)
    (params : option (list (string * string))) : completion string :=
  let url := request_url endpoint params in
  let options := base_options method in
  res <- try_catch (fetch url options) on_fetch_rejected ;;
  if negb (ok res)
  then Throw (TrackingTimeError (res_status res)
                ("TrackingTime returned HTTP " ++ number_to_string (res_status res)))
  else res_text res.

End Client.

End ApiClient.

(* ================================================================== *)
(** ** tools.ts *)
(* ================================================================== *)

Module Tools.

Import ApiClient.

Definition formatError (err : thrown) : string :=
  match err with
  | TrackingTimeError status message =>
      "TrackingTime API error (" ++ number_to_string status ++ "): " ++ message
  | _ =>
      if instanceof_Error err then error_message err
      else String_of_thrown err
  end.

(** One item of [content]; [text] is [None] when [JSON.stringify] gave
    [undefined]. *)
Record TextContent : Type := {
  type : string;
  text : option string
}.

(** The value a handler returns; [isError] is [None] where the object has no
    such property. *)
Record CallToolResult : Type := {
  content : list TextContent;
  isError : option bool
}.

Definition toolResult (data : value) : CallToolResult :=
  {| content := [ {| type := "text"; text := JSON_stringify_indent2 data |} ];
     isError := None |}.

Definition errorResult (err : thrown) : CallToolResult :=
  {| content := [ {| type := "text"; text := Some (formatError err) |} ];
     isError := Some true |}.

(** *** What the handlers do before they call [apiRequest] *)

(** [params.key = v] on a record of strings, [body.key = v] on a record of
    values: the key keeps its place when it is there already and goes last
    otherwise. *)
Fixpoint set_param (key v : string) (params : list (string * string)) : list (string * string) :=
  match params with
  | [] => [(key, v)]
  | (k, w) :: rest =>
      if k =? key then (k, v) :: rest else (k, w) :: set_param key v rest
  end.

Fixpoint set_field (key : string) (v : value) (fields : list (string * value)) : list (string * value) :=
  match fields with
  | [] => [(key, v)]
  | (k, w) :: rest =>
      if k =? key then (k, v) :: rest else (k, w) :: set_field key v rest
  end.

(** An assignment under an [if]: [x] is [Some v] when the test passes and
    [v] is what is assigned. *)
Definition set_param_opt (key : string) (x : option string) (params : list (string * string))
  : list (string * string) :=
  match x with
  | Some v => set_param key v params
  | None => params
  end.

Definition set_field_opt (key : string) (x : option value) (fields : list (string * value))
  : list (string * value) :=
  match x with
  | Some v => set_field key v fields
  | None => fields
  end.

(** The test [if (x)] on an optional argument, by the type its schema gives
    it: a string passes when it is not empty, a number when it is not 0, a
    boolean when it is [true], an array always. The test
    [if (x !== undefined)] passes on every argument that is given. *)
Definition when_string (x : option string) : option string :=
  match x with
  | Some s => if truthy (VStr s) then Some s else None
  | None => None
  end.

Definition when_number (x : option Z) : option Z :=
  match x with
  | Some n => if truthy (VNum n) then Some n else None
  | None => None
  end.

Definition when_true (x : option bool) : option bool :=
  match x with
  | Some b => if truthy (VBool b) then Some b else None
  | None => None
  end.

Definition when_array (x : option (list Z)) : option (list Z) :=
  match x with
  | Some l => if truthy (VArr (map VNum l)) then Some l else None
  | None => None
  end.

(** [ids.map((id) => ({ id }))]; an argument of schema
    [z.array(z.object({ id: z.number() }))] is the list of its ids, and this
    is its value. *)
Definition id_objects (ids : list Z) : value :=
  VArr (map (fun id => VObj [("id", VNum id)]) ids).

(** The value of an argument of schema
    [z.array(z.object({ project_name: z.string(), task_name: z.string() }))]. *)
Definition name_pairs (pairs : list (string * string)) : value :=
  VArr (map (fun p => VObj [("project_name", VStr (fst p)); ("task_name", VStr (snd p))]) pairs).

(** [JSON.stringify(v)] where a string is expected. *)
Definition JSON_stringify_text (v : value) : string :=
  match JSON_stringify v with
  | Some s => s
  | None => "undefined"
  end.

(** The arguments of the one call of [apiRequest] a handler makes. *)
Record call : Type := {
  call_method : string;
  call_endpoint : string;
  call_params : option (list (string * string));
  call_body : option value
}.

(** One [server.registerTool(name, { inputSchema, ... }, handler)]: the name,
    the type of the arguments the schema admits, and the statements of the
    handler's [try] block up to the call they end in. *)
Record tool : Type := {
  name : string;
  arguments : Type;
  request : arguments -> call
}.

(** 1. tt_list_projects *)
Record list_projects_args : Type := {
  list_projects_filter : option string
}.

Definition tt_list_projects : tool :=
  {| name := "tt_list_projects";
     arguments := list_projects_args;
     request := fun args =>
       let params := [] in
       let params := set_param_opt "filter" (when_string (list_projects_filter args)) params in
       {| call_method := "GET";
          call_endpoint := "/projects";
          call_params := Some params;
          call_body := None |} |}.

(** 2. tt_search_projects *)
Record search_projects_args : Type := {
  search_projects_keyword : string;
  search_projects_filter : option string;
  search_projects_type : option string
}.

Definition tt_search_projects : tool :=
  {| name := "tt_search_projects";
     arguments := search_projects_args;
     request := fun args =>
       let params := [("keyword", search_projects_keyword args)] in
       let params := set_param_opt "filter"
           (when_string (search_projects_filter args)) params in
       let params := set_param_opt "type" (when_string (search_projects_type args)) params in
       {| call_method := "GET";
          call_endpoint := "/projects/search";
          call_params := Some params;
          call_body := None |} |}.

(** 3. tt_create_project *)
Record create_project_args : Type := {
  create_project_name : string;
  create_project_customer_name : option string;
  create_project_service_name : option string;
  create_project_template_id : option Z
}.

Definition tt_create_project : tool :=
  {| name := "tt_create_project";
     arguments := create_project_args;
     request := fun args =>
       let body := [("name", VStr (create_project_name args))] in
       let body := set_field_opt "customer_name"
           (option_map VStr (when_string (create_project_customer_name args))) body in
       let body := set_field_opt "service_name"
           (option_map VStr (when_string (create_project_service_name args))) body in
       let body := set_field_opt "template_id"
           (option_map VNum (when_number (create_project_template_id args))) body in
       {| call_method := "POST";
          call_endpoint := "/projects/add";
          call_params := None;
          call_body := Some (VObj body) |} |}.

(** 4. tt_archive_project *)
Record archive_project_args : Type := {
  archive_project_id : Z
}.

Definition tt_archive_project : tool :=
  {| name := "tt_archive_project";
     arguments := archive_project_args;
     request := fun args =>
       {| call_method := "PUT";
          call_endpoint := "/projects/close/" ++ number_to_string (archive_project_id args);
          call_params := None;
          call_body := None |} |}.

(** 5. tt_list_tasks *)
Record list_tasks_args : Type := {
  list_tasks_filter : option string;
  list_tasks_project_id : option Z
}.

Definition tt_list_tasks : tool :=
  {| name := "tt_list_tasks";
     arguments := list_tasks_args;
     request := fun args =>
       let params := [] in
       let params := set_param_opt "filter" (when_string (list_tasks_filter args)) params in
       let params := set_param_opt "project_id"
           (option_map (fun v => to_String (VNum v)) (list_tasks_project_id args)) params in
       {| call_method := "GET";
          call_endpoint := "/tasks";
          call_params := Some params;
          call_body := None |} |}.

(** 6. tt_create_task *)
Record create_task_args : Type := {
  create_task_name : string;
  create_task_project_id : option Z;
  create_task_user_id : option Z;
  create_task_due_date : option string;
  create_task_estimated_time : option Z;
  create_task_users : option (list Z)
}.

Definition tt_create_task : tool :=
  {| name := "tt_create_task";
     arguments := create_task_args;
     request := fun args =>
       let body := [("name", VStr (create_task_name args))] in
       let body := set_field_opt "project_id"
           (option_map VNum (create_task_project_id args)) body in
       let body := set_field_opt "user_id" (option_map VNum (create_task_user_id args)) body in
       let body := set_field_opt "due_date"
           (option_map VStr (when_string (create_task_due_date args))) body in
       let body := set_field_opt "estimated_time"
           (option_map VNum (create_task_estimated_time args)) body in
       let body := set_field_opt "users"
           (option_map id_objects (when_array (create_task_users args))) body in
       {| call_method := "POST";
          call_endpoint := "/tasks/share";
          call_params := None;
          call_body := Some (VObj body) |} |}.

(** 7. tt_update_task *)
Record update_task_args : Type := {
  update_task_id : Z;
  update_task_name : option string;
  update_task_project_id : option Z;
  update_task_due_date : option string;
  update_task_estimated_time : option Z;
  update_task_users : option (list Z)
}.

Definition tt_update_task : tool :=
  {| name := "tt_update_task";
     arguments := update_task_args;
     request := fun args =>
       let body := [] in
       let body := set_field_opt "name"
           (option_map VStr (when_string (update_task_name args))) body in
       let body := set_field_opt "project_id"
           (option_map VNum (update_task_project_id args)) body in
       let body := set_field_opt "due_date"
           (option_map VStr (when_string (update_task_due_date args))) body in
       let body := set_field_opt "estimated_time"
           (option_map VNum (update_task_estimated_time args)) body in
       let body := set_field_opt "users"
           (option_map id_objects (when_array (update_task_users args))) body in
       {| call_method := "PUT";
          call_endpoint := "/tasks/update/" ++ number_to_string (update_task_id args);
          call_params := None;
          call_body := Some (VObj body) |} |}.

(** 8. tt_close_task *)
Record close_task_args : Type := {
  close_task_id : Z
}.

Definition tt_close_task : tool :=
  {| name := "tt_close_task";
     arguments := close_task_args;
     request := fun args =>
       {| call_method := "PUT";
          call_endpoint := "/tasks/close/" ++ number_to_string (close_task_id args);
          call_params := None;
          call_body := None |} |}.

(** 9. tt_start_timer *)
Record start_timer_args : Type := {
  start_timer_id : Z;
  start_timer_date : string;
  start_timer_timezone : option string;
  start_timer_stop_running_task : option bool;
  start_timer_task_name : option string;
  start_timer_project_name : option string
}.

Definition tt_start_timer : tool :=
  {| name := "tt_start_timer";
     arguments := start_timer_args;
     request := fun args =>
       let body := [("date", VStr (start_timer_date args))] in
       let body := set_field_opt "timezone"
           (option_map VStr (when_string (start_timer_timezone args))) body in
       let body := set_field_opt "stop_running_task"
           (option_map VBool (start_timer_stop_running_task args)) body in
       let body := set_field_opt "task_name"
           (option_map VStr (when_string (start_timer_task_name args))) body in
       let body := set_field_opt "project_name"
           (option_map VStr (when_string (start_timer_project_name args))) body in
       {| call_method := "POST";
          call_endpoint := "/tasks/track/" ++ number_to_string (start_timer_id args);
          call_params := None;
          call_body := Some (VObj body) |} |}.

(** 10. tt_stop_timer *)
Record stop_timer_args : Type := {
  stop_timer_id : Z;
  stop_timer_date : string;
  stop_timer_timezone : option string
}.

Definition tt_stop_timer : tool :=
  {| name := "tt_stop_timer";
     arguments := stop_timer_args;
     request := fun args =>
       let body := [("date", VStr (stop_timer_date args))] in
       let body := set_field_opt "timezone"
           (option_map VStr (when_string (stop_timer_timezone args))) body in
       {| call_method := "POST";
          call_endpoint := "/tasks/stop/" ++ number_to_string (stop_timer_id args);
          call_params := None;
          call_body := Some (VObj body) |} |}.

(** 11. tt_list_time_entries *)
Record list_time_entries_args : Type := {
  list_time_entries_filter : string;
  list_time_entries_id : option Z;
  list_time_entries_from : string;
  list_time_entries_to : string;
  list_time_entries_page : option Z;
  list_time_entries_page_size : option Z;
  list_time_entries_order : option string
}.

Definition tt_list_time_entries : tool :=
  {| name := "tt_list_time_entries";
     arguments := list_time_entries_args;
     request := fun args =>
       let params := [ ("filter", list_time_entries_filter args);
                       ("from", list_time_entries_from args);
                       ("to", list_time_entries_to args) ] in
       let params := set_param_opt "id"
           (option_map (fun v => to_String (VNum v)) (list_time_entries_id args)) params in
       let params := set_param_opt "page"
           (option_map (fun v => to_String (VNum v)) (list_time_entries_page args)) params in
       let params := set_param_opt "page_size"
           (option_map (fun v => to_String (VNum v)) (list_time_entries_page_size args)) params in
       let params := set_param_opt "order"
           (when_string (list_time_entries_order args)) params in
       {| call_method := "GET";
          call_endpoint := "/events";
          call_params := Some params;
          call_body := None |} |}.

(** 12. tt_add_time_entry *)
Record add_time_entry_args : Type := {
  add_time_entry_duration : Z;
  add_time_entry_user_id : Z;
  add_time_entry_task_id : option Z;
  add_time_entry_project_id : option Z;
  add_time_entry_start : option string;
  add_time_entry_end : option string;
  add_time_entry_notes : option string
}.

Definition tt_add_time_entry : tool :=
  {| name := "tt_add_time_entry";
     arguments := add_time_entry_args;
     request := fun args =>
       let body := [ ("duration", VNum (add_time_entry_duration args));
                     ("user_id", VNum (add_time_entry_user_id args)) ] in
       let body := set_field_opt "task_id"
           (option_map VNum (add_time_entry_task_id args)) body in
       let body := set_field_opt "project_id"
           (option_map VNum (add_time_entry_project_id args)) body in
       let body := set_field_opt "start"
           (option_map VStr (when_string (add_time_entry_start args))) body in
       let body := set_field_opt "end"
           (option_map VStr (when_string (add_time_entry_end args))) body in
       let body := set_field_opt "notes"
           (option_map VStr (when_string (add_time_entry_notes args))) body in
       {| call_method := "POST";
          call_endpoint := "/events/add";
          call_params := None;
          call_body := Some (VObj body) |} |}.

(** 13. tt_get_events_summary *)
Record get_events_summary_args : Type := {
  get_events_summary_from : string;
  get_events_summary_to : string;
  get_events_summary_users : option (list Z)
}.

Definition tt_get_events_summary : tool :=
  {| name := "tt_get_events_summary";
     arguments := get_events_summary_args;
     request := fun args =>
       let params := [ ("from", get_events_summary_from args);
                       ("to", get_events_summary_to args) ] in
       let params := set_param_opt "users"
           (option_map (fun v => JSON_stringify_text (id_objects v)) (when_array (get_events_summary_users args))) params in
       {| call_method := "GET";
          call_endpoint := "/events/summary";
          call_params := Some params;
          call_body := None |} |}.

(** 14. tt_list_customers *)
Record list_customers_args : Type := {
  list_customers_filter : option string
}.

Definition tt_list_customers : tool :=
  {| name := "tt_list_customers";
     arguments := list_customers_args;
     request := fun args =>
       let params := [] in
       let params := set_param_opt "filter" (when_string (list_customers_filter args)) params in
       {| call_method := "GET";
          call_endpoint := "/customers";
          call_params := Some params;
          call_body := None |} |}.

(** 15. tt_list_users *)
Record list_users_args : Type := {
  list_users_filter : option string;
  list_users_include_teams : option bool
}.

Definition tt_list_users : tool :=
  {| name := "tt_list_users";
     arguments := list_users_args;
     request := fun args =>
       let params := [] in
       let params := set_param_opt "filter" (when_string (list_users_filter args)) params in
       let params := set_param_opt "include_teams"
           (option_map (fun _ => "true") (when_true (list_users_include_teams args))) params in
       {| call_method := "GET";
          call_endpoint := "/users";
          call_params := Some params;
          call_body := None |} |}.

(** 16. tt_update_project *)
Record update_project_args : Type := {
  update_project_id : Z;
  update_project_name : option string;
  update_project_customer_name : option string;
  update_project_service_name : option string
}.

Definition tt_update_project : tool :=
  {| name := "tt_update_project";
     arguments := update_project_args;
     request := fun args =>
       let body := [] in
       let body := set_field_opt "name"
           (option_map VStr (when_string (update_project_name args))) body in
       let body := set_field_opt "customer_name"
           (option_map VStr (when_string (update_project_customer_name args))) body in
       let body := set_field_opt "service_name"
           (option_map VStr (when_string (update_project_service_name args))) body in
       {| call_method := "POST";
          call_endpoint := "/projects/update/" ++ number_to_string (update_project_id args);
          call_params := None;
          call_body := Some (VObj body) |} |}.

(** 17. tt_get_project_users *)
Record get_project_users_args : Type := {
  get_project_users_id : Z
}.

Definition tt_get_project_users : tool :=
  {| name := "tt_get_project_users";
     arguments := get_project_users_args;
     request := fun args =>
       {| call_method := "GET";
          call_endpoint := "/projects/"
             ++ number_to_string (get_project_users_id args)
             ++ "/users";
          call_params := None;
          call_body := None |} |}.

(** 18. tt_assign_user_projects *)
Record assign_user_projects_args : Type := {
  assign_user_projects_user_id : Z;
  assign_user_projects_project_ids : list Z
}.

Definition tt_assign_user_projects : tool :=
  {| name := "tt_assign_user_projects";
     arguments := assign_user_projects_args;
     request := fun args =>
       let data := id_objects (assign_user_projects_project_ids args) in
       {| call_method := "POST";
          call_endpoint := "/users/"
             ++ number_to_string (assign_user_projects_user_id args)
             ++ "/assign_projects";
          call_params := None;
          call_body := Some (VObj [("data", data)]) |} |}.

(** 19. tt_remove_user_projects *)
Record remove_user_projects_args : Type := {
  remove_user_projects_user_id : Z;
  remove_user_projects_project_ids : list Z
}.

Definition tt_remove_user_projects : tool :=
  {| name := "tt_remove_user_projects";
     arguments := remove_user_projects_args;
     request := fun args =>
       let data := id_objects (remove_user_projects_project_ids args) in
       {| call_method := "POST";
          call_endpoint := "/users/"
             ++ number_to_string (remove_user_projects_user_id args)
             ++ "/remove_projects";
          call_params := None;
          call_body := Some (VObj [("data", data)]) |} |}.

(** 20. tt_create_customer *)
Record create_customer_args : Type := {
  create_customer_name : string;
  create_customer_notes : option string;
  create_customer_contact_name : option string;
  create_customer_contact_email : option string
}.

Definition tt_create_customer : tool :=
  {| name := "tt_create_customer";
     arguments := create_customer_args;
     request := fun args =>
       let body := [("name", VStr (create_customer_name args))] in
       let body := set_field_opt "notes"
           (option_map VStr (when_string (create_customer_notes args))) body in
       let body := set_field_opt "contact_name"
           (option_map VStr (when_string (create_customer_contact_name args))) body in
       let body := set_field_opt "contact_email"
           (option_map VStr (when_string (create_customer_contact_email args))) body in
       {| call_method := "POST";
          call_endpoint := "/customers/add";
          call_params := None;
          call_body := Some (VObj body) |} |}.

(** 21. tt_update_customer *)
Record update_customer_args : Type := {
  update_customer_id : Z;
  update_customer_name : option string;
  update_customer_notes : option string;
  update_customer_contact_name : option string;
  update_customer_contact_email : option string
}.

Definition tt_update_customer : tool :=
  {| name := "tt_update_customer";
     arguments := update_customer_args;
     request := fun args =>
       let body := [] in
       let body := set_field_opt "name"
           (option_map VStr (when_string (update_customer_name args))) body in
       let body := set_field_opt "notes"
           (option_map VStr (when_string (update_customer_notes args))) body in
       let body := set_field_opt "contact_name"
           (option_map VStr (when_string (update_customer_contact_name args))) body in
       let body := set_field_opt "contact_email"
           (option_map VStr (when_string (update_customer_contact_email args))) body in
       {| call_method := "PUT";
          call_endpoint := "/customers/update/" ++ number_to_string (update_customer_id args);
          call_params := None;
          call_body := Some (VObj body) |} |}.

(** 22. tt_get_project *)
Record get_project_args : Type := {
  get_project_id : Z;
  get_project_include_tasks : option bool;
  get_project_include_task_lists : option bool;
  get_project_include_billing : option bool;
  get_project_include_subtasks : option bool
}.

Definition tt_get_project : tool :=
  {| name := "tt_get_project";
     arguments := get_project_args;
     request := fun args =>
       let params := [] in
       let params := set_param_opt "include_tasks"
           (option_map (fun _ => "true") (when_true (get_project_include_tasks args))) params in
       let params := set_param_opt "include_task_lists"
           (option_map (fun _ => "true") (when_true (get_project_include_task_lists args))) params in
       let params := set_param_opt "include_billing"
           (option_map (fun _ => "true") (when_true (get_project_include_billing args))) params in
       let params := set_param_opt "include_subtasks"
           (option_map (fun _ => "true") (when_true (get_project_include_subtasks args))) params in
       {| call_method := "GET";
          call_endpoint := "/projects/" ++ number_to_string (get_project_id args);
          call_params := Some params;
          call_body := None |} |}.

(** 23. tt_reopen_project *)
Record reopen_project_args : Type := {
  reopen_project_id : Z
}.

Definition tt_reopen_project : tool :=
  {| name := "tt_reopen_project";
     arguments := reopen_project_args;
     request := fun args =>
       {| call_method := "POST";
          call_endpoint := "/projects/open/" ++ number_to_string (reopen_project_id args);
          call_params := None;
          call_body := None |} |}.

(** 24. tt_get_project_times *)
Record get_project_times_args : Type := {
  get_project_times_project_ids : list Z
}.

Definition tt_get_project_times : tool :=
  {| name := "tt_get_project_times";
     arguments := get_project_times_args;
     request := fun args =>
       let data := id_objects (get_project_times_project_ids args) in
       {| call_method := "POST";
          call_endpoint := "/projects/times";
          call_params := None;
          call_body := Some data |} |}.

(** 25. tt_get_task *)
Record get_task_args : Type := {
  get_task_id : Z;
  get_task_include_billing : option bool
}.

Definition tt_get_task : tool :=
  {| name := "tt_get_task";
     arguments := get_task_args;
     request := fun args =>
       let params := [] in
       let params := set_param_opt "include_billing"
           (option_map (fun _ => "true") (when_true (get_task_include_billing args))) params in
       {| call_method := "GET";
          call_endpoint := "/tasks/" ++ number_to_string (get_task_id args);
          call_params := Some params;
          call_body := None |} |}.

(** 26. tt_delete_task *)
Record delete_task_args : Type := {
  delete_task_id : Z;
  delete_task_delete_all : option bool
}.

Definition tt_delete_task : tool :=
  {| name := "tt_delete_task";
     arguments := delete_task_args;
     request := fun args =>
       let params := [] in
       let params := set_param_opt "delete_all"
           (option_map (fun v => to_String (VBool v)) (delete_task_delete_all args)) params in
       {| call_method := "DELETE";
          call_endpoint := "/tasks/delete/" ++ number_to_string (delete_task_id args);
          call_params := Some params;
          call_body := None |} |}.

(** 27. tt_reopen_task *)
Record reopen_task_args : Type := {
  reopen_task_id : Z
}.

Definition tt_reopen_task : tool :=
  {| name := "tt_reopen_task";
     arguments := reopen_task_args;
     request := fun args =>
       {| call_method := "PUT";
          call_endpoint := "/tasks/open/" ++ number_to_string (reopen_task_id args);
          call_params := None;
          call_body := None |} |}.

(** 28. tt_search_tasks *)
Record search_tasks_args : Type := {
  search_tasks_data : list (string * string)
}.

Definition tt_search_tasks : tool :=
  {| name := "tt_search_tasks";
     arguments := search_tasks_args;
     request := fun args =>
       {| call_method := "POST";
          call_endpoint := "/tasks/search";
          call_params := None;
          call_body := Some (VObj [("data", name_pairs (search_tasks_data args))]) |} |}.

(** 29. tt_get_time_entry *)
Record get_time_entry_args : Type := {
  get_time_entry_id : Z
}.

Definition tt_get_time_entry : tool :=
  {| name := "tt_get_time_entry";
     arguments := get_time_entry_args;
     request := fun args =>
       {| call_method := "GET";
          call_endpoint := "/events/" ++ number_to_string (get_time_entry_id args);
          call_params := None;
          call_body := None |} |}.

(** 30. tt_update_time_entry *)
Record update_time_entry_args : Type := {
  update_time_entry_id : Z;
  update_time_entry_end : string;
  update_time_entry_start : option string;
  update_time_entry_task_id : option Z;
  update_time_entry_project_id : option Z;
  update_time_entry_notes : option string
}.

Definition tt_update_time_entry : tool :=
  {| name := "tt_update_time_entry";
     arguments := update_time_entry_args;
     request := fun args =>
       let body := [("end", VStr (update_time_entry_end args))] in
       let body := set_field_opt "start"
           (option_map VStr (when_string (update_time_entry_start args))) body in
       let body := set_field_opt "task_id"
           (option_map VNum (update_time_entry_task_id args)) body in
       let body := set_field_opt "project_id"
           (option_map VNum (update_time_entry_project_id args)) body in
       let body := set_field_opt "notes"
           (option_map VStr (when_string (update_time_entry_notes args))) body in
       {| call_method := "PUT";
          call_endpoint := "/events/update/" ++ number_to_string (update_time_entry_id args);
          call_params := None;
          call_body := Some (VObj body) |} |}.

(** 31. tt_delete_time_entry *)
Record delete_time_entry_args : Type := {
  delete_time_entry_id : Z
}.

Definition tt_delete_time_entry : tool :=
  {| name := "tt_delete_time_entry";
     arguments := delete_time_entry_args;
     request := fun args =>
       {| call_method := "DELETE";
          call_endpoint := "/events/delete/" ++ number_to_string (delete_time_entry_id args);
          call_params := None;
          call_body := None |} |}.

(** 32. tt_export_time_entries *)
Record export_time_entries_args : Type := {
  export_time_entries_separator : string;
  export_time_entries_filter : option string;
  export_time_entries_id : option Z;
  export_time_entries_from : option string;
  export_time_entries_to : option string
}.

Definition tt_export_time_entries : tool :=
  {| name := "tt_export_time_entries";
     arguments := export_time_entries_args;
     request := fun args =>
       let params := [("separator", export_time_entries_separator args)] in
       let params := set_param_opt "filter"
           (when_string (export_time_entries_filter args)) params in
       let params := set_param_opt "id"
           (option_map (fun v => to_String (VNum v)) (export_time_entries_id args)) params in
       let params := set_param_opt "from"
           (when_string (export_time_entries_from args)) params in
       let params := set_param_opt "to" (when_string (export_time_entries_to args)) params in
       {| call_method := "GET";
          call_endpoint := "/events/export";
          call_params := Some params;
          call_body := None |} |}.

(** 33. tt_mark_billed *)
Record mark_billed_args : Type := {
  mark_billed_entry_ids : list Z
}.

Definition tt_mark_billed : tool :=
  {| name := "tt_mark_billed";
     arguments := mark_billed_args;
     request := fun args =>
       let data := id_objects (mark_billed_entry_ids args) in
       {| call_method := "PUT";
          call_endpoint := "/events/billed";
          call_params := None;
          call_body := Some data |} |}.

(** 34. tt_mark_not_billed *)
Record mark_not_billed_args : Type := {
  mark_not_billed_entry_ids : list Z
}.

Definition tt_mark_not_billed : tool :=
  {| name := "tt_mark_not_billed";
     arguments := mark_not_billed_args;
     request := fun args =>
       let data := id_objects (mark_not_billed_entry_ids args) in
       {| call_method := "PUT";
          call_endpoint := "/events/not_billed";
          call_params := None;
          call_body := Some data |} |}.

(** 35. tt_get_user_trackables *)
Record get_user_trackables_args : Type := {
  get_user_trackables_user_id : Z;
  get_user_trackables_only_favorites : option bool;
  get_user_trackables_include_tasks : option bool;
  get_user_trackables_project_id : option Z
}.

Definition tt_get_user_trackables : tool :=
  {| name := "tt_get_user_trackables";
     arguments := get_user_trackables_args;
     request := fun args =>
       let params := [] in
       let params := set_param_opt "only_favorites"
           (option_map (fun _ => "true") (when_true (get_user_trackables_only_favorites args))) params in
       let params := set_param_opt "include_tasks"
           (option_map (fun _ => "true") (when_true (get_user_trackables_include_tasks args))) params in
       let params := set_param_opt "project_id"
           (option_map (fun v => to_String (VNum v)) (get_user_trackables_project_id args)) params in
       {| call_method := "GET";
          call_endpoint := "/users/"
             ++ number_to_string (get_user_trackables_user_id args)
             ++ "/trackables";
          call_params := Some params;
          call_body := None |} |}.

(** [registerTools]: the tools registered, in the order of the file. *)
Definition registerTools : list tool :=
  [ tt_list_projects;
    tt_search_projects;
    tt_create_project;
    tt_archive_project;
    tt_list_tasks;
    tt_create_task;
    tt_update_task;
    tt_close_task;
    tt_start_timer;
    tt_stop_timer;
    tt_list_time_entries;
    tt_add_time_entry;
    tt_get_events_summary;
    tt_list_customers;
    tt_list_users;
    tt_update_project;
    tt_get_project_users;
    tt_assign_user_projects;
    tt_remove_user_projects;
    tt_create_customer;
    tt_update_customer;
    tt_get_project;
    tt_reopen_project;
    tt_get_project_times;
    tt_get_task;
    tt_delete_task;
    tt_reopen_task;
    tt_search_tasks;
    tt_get_time_entry;
    tt_update_time_entry;
    tt_delete_time_entry;
    tt_export_time_entries;
    tt_mark_billed;
    tt_mark_not_billed;
    tt_get_user_trackables ].

Section Handlers.

Variable m : constants.
Variable fetch : string -> RequestInit -> completion Response.

(** The frame of every handler:
    [async (args) => { try { return toolResult(await block); }
                       catch (err) { return errorResult(err); } }]. *)
Definition handler (block : completion value) : completion CallToolResult :=
  try_catch (data <- block ;; Return (toolResult data))
            (fun err => Return (errorResult err)).

(** The handler of a registered tool on given arguments. *)
Definition invoke (t : tool) (args : arguments t) : completion CallToolResult :=
  handler
    (let c := request t args in
     apiRequest m fetch (call_method c) (call_endpoint c) (call_params c) (call_body c)).

End Handlers.

(** Line 3 of tools.ts imports api-client.js, so the module of the tools is
    evaluated only after that of the client, and fails when that one throws.
    What it gives then are the handlers of [registerTools], bound to the
    constants of the client. *)
Record served : Type := {
  served_tool : tool;
  handle : (string -> RequestInit -> completion Response) ->
           arguments served_tool -> completion CallToolResult
}.

Definition serve_tools (m : constants) : list served :=
  map (fun t => {| served_tool := t; handle := fun fetch => invoke m fetch t |}) registerTools.

Definition evaluate (env : environment) : completion (list served) :=
  m <- ApiClient.evaluate env ;;
  Return (serve_tools m).

End Tools.

(* ================================================================== *)
(** ** Concrete runs *)
(* ================================================================== *)

Module Scenario.

Import ApiClient Tools.

Definition account : constants :=
  {| TT_APP_PASSWORD := "app-password"; TT_ACCOUNT_ID := "12345" |}.

Definition json_response (http : Z) (envelope : TTResponse) : Response :=
  {| res_status := http;
     content_type := Some "application/json; charset=utf-8";
     res_text := Throw (Error "TypeError" "Body is unusable: Body has already been read");
     res_json := Return envelope |}.

(** A body that is no JSON: [res.json()] rejects on it. *)
Definition text_response (http : Z) (ctype body : string) : Response :=
  {| res_status := http;
     content_type := Some ctype;
     res_text := Return body;
     res_json := Throw (Error "SyntaxError" "Unexpected token i in JSON at position 0") |}.

(** A service that answers one URL and refuses every other connection. *)
Definition serve (url : string) (res : Response) : string -> RequestInit -> completion Response :=
  fun u _ =>
    if u =? url then Return res
    else Throw (Error "TypeError" "fetch failed").

Definition refuse : string -> RequestInit -> completion Response :=
  fun _ _ => Throw (Error "TypeError" "fetch failed").


Definition envelope (s : Z) (msg : option string) (d : value) : TTResponse :=
  {| response := {| status := s; message := msg |}; data := d |}.

Definition demo_projects : value :=
  VArr [ VObj [ ("id", VNum 1); ("name", VStr "Demo") ] ].

Definition csv_body : string := "id,duration" ++ chr 10 ++ "1,3600".

Definition export_comma : export_time_entries_args :=
  {| export_time_entries_separator := ",";
     export_time_entries_filter := None;
     export_time_entries_id := None;
     export_time_entries_from := None;
     export_time_entries_to := None |}.

End Scenario.

(* ================================================================== *)
(** ** Predicates on text *)
(* ================================================================== *)

Module Text.

(** Every character of [s] passes [p]. *)
Fixpoint all_chars (p : ascii -> bool) (s : string) : bool :=
  match s with
  | EmptyString => true
  | String c rest => p c && all_chars p rest
  end.

(** The number of occurrences of [c] in [s]. *)
Fixpoint count_char (c : ascii) (s : string) : nat :=
  match s with
  | EmptyString => 0
  | String d rest => (if Ascii.eqb d c then 1 else 0) + count_char c rest
  end.

(** The characters an encoded key or value is made of: letters, digits,
    [*], [-], [.], [_], the [+] that stands for a space and the [%] of an
    escape. *)
Definition encoded_char (c : ascii) : bool :=
  let n := N_of_ascii c in
  is_alnum n || (n =? 42)%N || (n =? 45)%N || (n =? 46)%N || (n =? 95)%N
  || (n =? 43)%N || (n =? 37)%N.

End Text.

(* ================================================================== *)
(** ** Reading base64 back *)
(* ================================================================== *)

Module Inverse.

(** The place of a character in an alphabet. *)
Fixpoint index_in (c : ascii) (alphabet : string) : option N :=
  match alphabet with
  | EmptyString => None
  | String d rest =>
      if Ascii.eqb c d then Some 0%N else option_map N.succ (index_in c rest)
  end.

Definition sextet (c : ascii) : N :=
  match index_in c base64_alphabet with
  | Some n => n
  | None => 0%N
  end.

(** The bytes a base64 text stands for, four characters at a time, with the
    padding [=] in the third or fourth place of the last four. *)
Fixpoint base64_decode (s : string) : list N :=
  match s with
  | String c1 (String c2 (String c3 (String c4 rest))) =>
      let a := (sextet c1 * 4 + sextet c2 / 16)%N in
      if Ascii.eqb c3 "=" then [a]
      else
        let b := ((sextet c2 mod 16) * 16 + sextet c3 / 4)%N in
        if Ascii.eqb c4 "=" then [a; b]
        else a :: b :: ((sextet c3 mod 4) * 64 + sextet c4)%N :: base64_decode rest
  | _ => []
  end.

End Inverse.

(* ================================================================== *)
(** ** The body before the cast *)
(* ================================================================== *)

(** [res.json()] gives any JSON value, and line 98 casts it to [TTResponse]
    without a check. This module has the response as [fetch] gives it and the
    reads of line 100 on the value parsed, and says which [Response] of
    [ApiClient] stands for it. *)
Module Wire.

Import ApiClient.

Definition nullish (v : value) : bool :=
  match v with
  | VUndefined | VNull => true
  | _ => false
  end.

Fixpoint assoc (key : string) (fields : list (string * value)) : value :=
  match fields with
  | [] => VUndefined
  | (k, v) :: rest => if k =? key then v else assoc key rest
  end.

(** [v.key] on a value that is neither [null] nor [undefined], for a key
    that no prototype defines, as are [response], [status], [message] and
    [data]: the field of an object, [undefined] on anything else. *)
Definition own_field (v : value) (key : string) : value :=
  match v with
  | VObj fields => assoc key fields
  | _ => VUndefined
  end.

(** [v.key]: a [TypeError] on [null] and [undefined]. *)
Definition read (v : value) (key : string) : completion value :=
  if nullish v
  then Throw (Error "TypeError"
                ("Cannot read properties of " ++ to_String v
                   ++ " (reading '" ++ key ++ "')"))
  else Return (own_field v key).

(** The value parsed, read as line 100 reads it: [json.response.status]
    throws when [json] or [json.response] is [null] or [undefined]; otherwise
    the value is the [TTResponse] of its fields when [status] is a number and
    [message] a string, [null] or missing. [None] is a value outside the
    declared type, which [ApiClient] does not cover. *)
Definition as_TTResponse (json : value) : option (completion TTResponse) :=
  match read json "response" with
  | Throw e => Some (Throw e)
  | Return r =>
      match read r "status" with
      | Throw e => Some (Throw e)
      | Return (VNum n) =>
          match own_field r "message" with
          | VStr s =>
              Some (Return {| response := {| status := n; message := Some s |};
                              data := own_field json "data" |})
          | VUndefined | VNull =>
              Some (Return {| response := {| status := n; message := None |};
                              data := own_field json "data" |})
          | _ => None
          end
      | Return _ => None
      end
  end.

Record WireResponse : Type := {
  wire_status : Z;
  wire_content_type : option string;
  wire_text : completion string;
  wire_json : completion value
}.

Definition typed (w : WireResponse) : option Response :=
  match wire_json w with
  | Throw e =>
      Some {| res_status := wire_status w;
              content_type := wire_content_type w;
              res_text := wire_text w;
              res_json := Throw e |}
  | Return v =>
      match as_TTResponse v with
      | Some c =>
          Some {| res_status := wire_status w;
                  content_type := wire_content_type w;
                  res_text := wire_text w;
                  res_json := c |}
      | None => None
      end
  end.

Definition typed_outcome (o : completion WireResponse) : option (completion Response) :=
  match o with
  | Throw e => Some (Throw e)
  | Return w =>
      match typed w with
      | Some res => Some (Return res)
      | None => None
      end
  end.

(** A service that answers one URL with a JSON body and refuses every other
    connection. *)
Definition json_body (http : Z) (v : value) : WireResponse :=
  {| wire_status := http;
     wire_content_type := Some "application/json";
     wire_text := Throw (Error "TypeError" "Body is unusable: Body has already been read");
     wire_json := Return v |}.

Definition serve (url : string) (w : WireResponse) : string -> RequestInit -> completion WireResponse :=
  fun u _ =>
    if u =? url then Return w
    else Throw (Error "TypeError" "fetch failed").

End Wire.

(* ================================================================== *)
(** ** Properties of the transport client *)
(* ================================================================== *)

Import ApiClient Tools.

(** Runs of the platform model on small inputs. *)

Example base64_of_token :
  base64 "API_TOKEN:secret" = "QVBJX1RPS0VOOnNlY3JldA==".
Proof. reflexivity. Qed.

Example query_string_of_export :
  URLSearchParams_toString [("separator", ","); ("from", "2024-01-01"); ("q", "a b~c*")]
  = "separator=%2C&from=2024-01-01&q=a+b%7Ec*".
Proof. reflexivity. Qed.

Example includes_json :
  includes "application/json" "application/json; charset=utf-8" = true
  /\ includes "application/json" "text/html" = false
  /\ includes "application/json" EmptyString = false.
Proof. repeat split. Qed.

Example to_String_of_array :
  to_String (VArr [VNum 1; VNull; VArr [VStr "x"; VNum (-2)]; VObj []])
  = "1,,x,-2,[object Object]".
Proof. reflexivity. Qed.

Example stringify_with_indent :
  JSON_stringify_indent2 (VArr [VNum 1; VArr []; VArr [VBool true]])
  = Some ("[" ++ chr 10 ++ "  1," ++ chr 10 ++ "  []," ++ chr 10
            ++ "  [" ++ chr 10 ++ "    true" ++ chr 10 ++ "  ]" ++ chr 10 ++ "]")
  /\ JSON_stringify (VObj [("data", VArr [VNum 1; VUndefined]); ("gone", VUndefined)])
     = Some ("{" ++ json_quote "data" ++ ":[1,null]}").
Proof. split; reflexivity. Qed.

Example request_of_start_timer :
  request tt_start_timer
    {| start_timer_id := 42;
       start_timer_date := "2024-05-01 09:00:00";
       start_timer_timezone := Some EmptyString;
       start_timer_stop_running_task := Some false;
       start_timer_task_name := None;
       start_timer_project_name := Some "Demo" |}
  = {| call_method := "POST";
       call_endpoint := "/tasks/track/42";
       call_params := None;
       call_body := Some (VObj [ ("date", VStr "2024-05-01 09:00:00");
                                 ("stop_running_task", VBool false);
                                 ("project_name", VStr "Demo") ]) |}.
Proof. reflexivity. Qed.

Example registered_tools : length registerTools = 35%nat.
Proof. reflexivity. Qed.

Lemma truthy_string_nonempty (s : string) :
  s <> EmptyString -> truthy_string s = true.
Proof.
  destruct s as [|c s]; [congruence | reflexivity].
Qed.

Lemma lookup_no_hint (s : Z) :
  s <> 401%Z -> s <> 403%Z -> s <> 502%Z -> lookup s ERROR_HINTS = None.
Proof.
  intros H1 H2 H3. unfold ERROR_HINTS. cbn [lookup].
  destruct (Z.eqb_spec 401 s); [congruence|].
  destruct (Z.eqb_spec 403 s); [congruence|].
  destruct (Z.eqb_spec 502 s); [congruence|].
  reflexivity.
Qed.

(** The text of the error thrown for an envelope whose status is not 200,
    given the part [apiMessage] that stands for the envelope's message. *)
Lemma apiRequest_envelope_failure m fetch method endpoint params body res ct env :
  fetch (request_url m endpoint params) (request_options m method body) = Return res ->
  content_type res = Some ct ->
  includes "application/json" ct = true ->
  res_json res = Return env ->
  status (response env) <> 200%Z ->
  apiRequest m fetch method endpoint params body =
    let s := status (response env) in
    let fallback := "API error (status " ++ number_to_string s ++ ")" in
    let apiMessage :=
      match message (response env) with
      | Some t => if truthy_string t then t else fallback
      | None => fallback
      end in
    Throw (TrackingTimeError s
             match lookup s ERROR_HINTS with
             | Some h => if truthy_string h then apiMessage ++ ". " ++ h else apiMessage
             | None => apiMessage
             end).
Proof.
  intros Hfetch Hct Hjson Hbody Hs.
  unfold apiRequest. rewrite Hfetch. cbn [try_catch bind].
  rewrite Hct, Hjson. cbn [negb]. rewrite Hbody. cbn [bind].
  destruct (Z.eqb_spec (status (response env)) 200); [contradiction|].
  reflexivity.
Qed.

(** The three entries of the hint table, and nothing beside them. *)
Lemma apiRequest_hinted_text (s : Z) (apiMessage : string) :
  let text :=
    match lookup s ERROR_HINTS with
    | Some h => if truthy_string h then apiMessage ++ ". " ++ h else apiMessage
    | None => apiMessage
    end in
  (s = 401%Z ->
     text = apiMessage ++ ". "
              ++ "Check that your App Password is correct and hasn't been revoked.")
  /\ (s = 403%Z ->
        text = apiMessage ++ ". "
                 ++ "Your account may not have permission for this action.")
  /\ (s = 502%Z ->
        text = apiMessage ++ ". "
                 ++ "This usually means a timer is already running. Use stop_running_task=true on tt_start_timer, or call tt_stop_timer first.")
  /\ (s <> 401%Z -> s <> 403%Z -> s <> 502%Z -> text = apiMessage).
Proof.
  cbv zeta. repeat split.
  - intros ->. reflexivity.
  - intros ->. reflexivity.
  - intros ->. reflexivity.
  - intros H1 H2 H3. rewrite (lookup_no_hint s H1 H2 H3). reflexivity.
Qed.

(** C1 (as amended). A call whose response has a JSON content type and parses
    to an envelope with a status other than 200 and a message that is not
    empty fails with a [TrackingTimeError] of the envelope's status. For the
    statuses 401, 403 and 502 its message is the envelope's message, then
    [". "], then the hint of that status; for every other status it is the
    envelope's message alone. *)
Theorem apiRequest_failure_carries_envelope
    m fetch method endpoint params body res ct env msg :
  fetch (request_url m endpoint params) (request_options m method body) = Return res ->
  content_type res = Some ct ->
  includes "application/json" ct = true ->
  res_json res = Return env ->
  status (response env) <> 200%Z ->
  message (response env) = Some msg ->
  msg <> EmptyString ->
  exists text,
    apiRequest m fetch method endpoint params body
      = Throw (TrackingTimeError (status (response env)) text)
    /\ (status (response env) = 401%Z ->
          text = msg ++ ". "
                   ++ "Check that your App Password is correct and hasn't been revoked.")
    /\ (status (response env) = 403%Z ->
          text = msg ++ ". "
                   ++ "Your account may not have permission for this action.")
    /\ (status (response env) = 502%Z ->
          text = msg ++ ". "
                   ++ "This usually means a timer is already running. Use stop_running_task=true on tt_start_timer, or call tt_stop_timer first.")
    /\ (status (response env) <> 401%Z -> status (response env) <> 403%Z ->
        status (response env) <> 502%Z -> text = msg).
Proof.
  intros Hfetch Hct Hjson Hbody Hs Hmsg Hne.
  rewrite (apiRequest_envelope_failure _ _ _ _ _ _ _ _ _ Hfetch Hct Hjson Hbody Hs).
  cbv zeta. rewrite Hmsg, (truthy_string_nonempty msg Hne).
  eexists. split; [reflexivity|].
  apply apiRequest_hinted_text.
Qed.

(** The spec's scenario: starting a timer while one runs. *)
Lemma apiRequest_failure_carries_envelope_witness :
  exists text,
    apiRequest Scenario.account
      (Scenario.serve "https://app.trackingtime.co/api/v4/12345/tasks/track/42"
         (Scenario.json_response 200
            (Scenario.envelope 502 (Some "already tracking") VUndefined)))
      "POST" "/tasks/track/42" None (Some (VObj [("date", VStr "2024-05-01 09:00:00")]))
      = Throw (TrackingTimeError 502 text)
    /\ text = "already tracking. This usually means a timer is already running. Use stop_running_task=true on tt_start_timer, or call tt_stop_timer first.".
Proof.
  destruct (apiRequest_failure_carries_envelope Scenario.account
              (Scenario.serve "https://app.trackingtime.co/api/v4/12345/tasks/track/42"
                 (Scenario.json_response 200
                    (Scenario.envelope 502 (Some "already tracking") VUndefined)))
              "POST" "/tasks/track/42" None
              (Some (VObj [("date", VStr "2024-05-01 09:00:00")]))
              (Scenario.json_response 200
                 (Scenario.envelope 502 (Some "already tracking") VUndefined))
              "application/json; charset=utf-8"
              (Scenario.envelope 502 (Some "already tracking") VUndefined)
              "already tracking")
    as [text [Hrun [_ [_ [H502 _]]]]];
    try reflexivity; try discriminate.
  exists text. split; [exact Hrun | exact (H502 eq_refl)].
Defined.

(** C1 (as stated fails). With an empty envelope message and a status that
    has no hint, the error's message is not the envelope's message. *)
Lemma apiRequest_empty_message_not_carried :
  let env := Scenario.envelope 500 (Some EmptyString) VNull in
  message (response env) = Some EmptyString
  /\ apiRequest Scenario.account
       (Scenario.serve "https://app.trackingtime.co/api/v4/12345/projects"
          (Scenario.json_response 200 env))
       "GET" "/projects" None None
     = Throw (TrackingTimeError 500 "API error (status 500)")
  /\ "API error (status 500)" <> EmptyString.
Proof.
  cbv zeta. split; [reflexivity|]. split; [reflexivity | discriminate].
Qed.

(** C9. A call whose envelope has a status other than 200 and a message that
    is empty or missing fails with a [TrackingTimeError] whose message is
    ["API error (status <s>)"] for the envelope's status, followed by [". "]
    and the hint when the status is 401, 403 or 502; that message is never
    empty. *)
Theorem apiRequest_failure_fallback_message
    m fetch method endpoint params body res ct env :
  fetch (request_url m endpoint params) (request_options m method body) = Return res ->
  content_type res = Some ct ->
  includes "application/json" ct = true ->
  res_json res = Return env ->
  status (response env) <> 200%Z ->
  message (response env) = None \/ message (response env) = Some EmptyString ->
  let fallback := "API error (status " ++ number_to_string (status (response env)) ++ ")" in
  exists text,
    apiRequest m fetch method endpoint params body
      = Throw (TrackingTimeError (status (response env)) text)
    /\ (status (response env) = 401%Z ->
          text = fallback ++ ". "
                   ++ "Check that your App Password is correct and hasn't been revoked.")
    /\ (status (response env) = 403%Z ->
          text = fallback ++ ". "
                   ++ "Your account may not have permission for this action.")
    /\ (status (response env) = 502%Z ->
          text = fallback ++ ". "
                   ++ "This usually means a timer is already running. Use stop_running_task=true on tt_start_timer, or call tt_stop_timer first.")
    /\ (status (response env) <> 401%Z -> status (response env) <> 403%Z ->
        status (response env) <> 502%Z -> text = fallback)
    /\ text <> EmptyString.
Proof.
  intros Hfetch Hct Hjson Hbody Hs Hmsg fallback.
  rewrite (apiRequest_envelope_failure _ _ _ _ _ _ _ _ _ Hfetch Hct Hjson Hbody Hs).
  cbv zeta.
  assert (Hfall : match message (response env) with
                  | Some t => if truthy_string t then t else fallback
                  | None => fallback
                  end = fallback)
    by (destruct Hmsg as [-> | ->]; reflexivity).
  fold fallback. rewrite Hfall.
  eexists. split; [reflexivity|].
  pose proof (apiRequest_hinted_text (status (response env)) fallback) as Hint.
  cbv zeta in Hint. destruct Hint as [H401 [H403 [H502 Hother]]].
  repeat split; try assumption.
  destruct (lookup (status (response env)) ERROR_HINTS) as [h|];
    [destruct (truthy_string h)|]; subst fallback; discriminate.
Qed.

Lemma apiRequest_failure_fallback_message_witness :
  exists text,
    apiRequest Scenario.account
      (Scenario.serve "https://app.trackingtime.co/api/v4/12345/projects"
         (Scenario.json_response 200 (Scenario.envelope 401 None VUndefined)))
      "GET" "projects" None None
      = Throw (TrackingTimeError 401 text)
    /\ text = "API error (status 401). Check that your App Password is correct and hasn't been revoked.".
Proof.
  destruct (apiRequest_failure_fallback_message Scenario.account
              (Scenario.serve "https://app.trackingtime.co/api/v4/12345/projects"
                 (Scenario.json_response 200 (Scenario.envelope 401 None VUndefined)))
              "GET" "projects" None None
              (Scenario.json_response 200 (Scenario.envelope 401 None VUndefined))
              "application/json; charset=utf-8"
              (Scenario.envelope 401 None VUndefined))
    as [text [Hrun [H401 _]]];
    try reflexivity; try discriminate; try (left; reflexivity).
  exists text. split; [exact Hrun | exact (H401 eq_refl)].
Defined.

(** C2. A call whose response has a JSON content type and parses to an
    envelope of status 200 returns the envelope's [data] as it is. Without
    query parameters the URL is the base URL, a slash and the endpoint, with
    no query string. On the mock envelope of the listing of projects the
    result is the mock's list. *)
Theorem apiRequest_returns_data (m : constants) :
  (forall fetch method endpoint params body res ct env,
      fetch (request_url m endpoint params) (request_options m method body) = Return res ->
      content_type res = Some ct ->
      includes "application/json" ct = true ->
      res_json res = Return env ->
      status (response env) = 200%Z ->
      apiRequest m fetch method endpoint params body = Return (data env))
  /\ (forall endpoint,
         request_url m endpoint None = BASE_URL m ++ "/" ++ strip_leading_slash endpoint
         /\ request_url m endpoint (Some []) = BASE_URL m ++ "/" ++ strip_leading_slash endpoint)
  /\ (forall fetch res ct,
         fetch (BASE_URL m ++ "/projects") (base_options m "GET") = Return res ->
         content_type res = Some ct ->
         includes "application/json" ct = true ->
         res_json res =
           Return {| response := {| status := 200; message := Some "ok" |};
                     data := VArr [ VObj [ ("id", VNum 1); ("name", VStr "Demo") ] ] |} ->
         apiRequest m fetch "GET" "/projects" None None
           = Return (VArr [ VObj [ ("id", VNum 1); ("name", VStr "Demo") ] ])).
Proof.
  assert (General : forall fetch method endpoint params body res ct env,
             fetch (request_url m endpoint params) (request_options m method body) = Return res ->
             content_type res = Some ct ->
             includes "application/json" ct = true ->
             res_json res = Return env ->
             status (response env) = 200%Z ->
             apiRequest m fetch method endpoint params body = Return (data env)).
  { intros fetch method endpoint params body res ct env Hfetch Hct Hjson Hbody Hs.
    unfold apiRequest. rewrite Hfetch. cbn [try_catch bind].
    rewrite Hct, Hjson. cbn [negb]. rewrite Hbody. cbn [bind].
    rewrite Hs. reflexivity. }
  split; [exact General|]. split.
  - intros endpoint. split; reflexivity.
  - intros fetch res ct Hfetch Hct Hjson Hbody.
    rewrite (General fetch "GET" "/projects" None None res ct _ Hfetch Hct Hjson Hbody eq_refl).
    reflexivity.
Qed.

Lemma apiRequest_returns_data_witness :
  apiRequest Scenario.account
    (Scenario.serve "https://app.trackingtime.co/api/v4/12345/projects"
       (Scenario.json_response 200
          (Scenario.envelope 200 (Some "ok") Scenario.demo_projects)))
    "GET" "/projects" None None
  = Return Scenario.demo_projects.
Proof.
  apply (proj2 (proj2 (apiRequest_returns_data Scenario.account)))
    with (res := Scenario.json_response 200
                   (Scenario.envelope 200 (Some "ok") Scenario.demo_projects))
         (ct := "application/json; charset=utf-8");
    reflexivity.
Defined.





(** C5. When the exchange completes and the content type of the response
    does not include ["application/json"] (or there is none), [apiRequest]
    fails with a [TrackingTimeError] that carries the HTTP status and a
    message noting a non-JSON response, whatever that status is, and so it
    never returns a result. *)
Theorem apiRequest_rejects_non_json m fetch method endpoint params body res :
  fetch (request_url m endpoint params) (request_options m method body) = Return res ->
  content_type res = None
  \/ (exists ct, content_type res = Some ct /\ includes "application/json" ct = false) ->
  apiRequest m fetch method endpoint params body
    = Throw (TrackingTimeError (res_status res)
               ("TrackingTime returned HTTP " ++ number_to_string (res_status res)
                  ++ " with non-JSON response. The service may be temporarily unavailable."))
  /\ (forall d, apiRequest m fetch method endpoint params body <> Return d).
Proof.
  intros Hfetch Hct.
  assert (Hrun : apiRequest m fetch method endpoint params body
                 = Throw (TrackingTimeError (res_status res)
                            ("TrackingTime returned HTTP " ++ number_to_string (res_status res)
                               ++ " with non-JSON response. The service may be temporarily unavailable."))).
  { unfold apiRequest. rewrite Hfetch. cbn [try_catch bind].
    destruct Hct as [-> | [ct [-> Hno]]].
    - reflexivity.
    - rewrite Hno. reflexivity. }
  split; [exact Hrun|]. intros d. rewrite Hrun. discriminate.
Qed.

Lemma apiRequest_rejects_non_json_witness :
  apiRequest Scenario.account
    (Scenario.serve "https://app.trackingtime.co/api/v4/12345/projects"
       (Scenario.text_response 200 "text/html" "<html>Bad Gateway</html>"))
    "GET" "/projects" None None
  = Throw (TrackingTimeError 200
             "TrackingTime returned HTTP 200 with non-JSON response. The service may be temporarily unavailable.").
Proof.
  apply (apiRequest_rejects_non_json Scenario.account
           (Scenario.serve "https://app.trackingtime.co/api/v4/12345/projects"
              (Scenario.text_response 200 "text/html" "<html>Bad Gateway</html>"))
           "GET" "/projects" None None
           (Scenario.text_response 200 "text/html" "<html>Bad Gateway</html>")).
  - reflexivity.
  - right. exists "text/html". split; reflexivity.
Defined.

(** C6. When the exchange completes, [rawApiRequest] looks at the HTTP
    status alone: from 200 to 299 it returns the text of the body as it is;
    otherwise it fails with a [TrackingTimeError] that carries the status and
    the message ["TrackingTime returned HTTP <status>"]. Neither outcome
    depends on the content type or on what the body parses to. *)
Theorem rawApiRequest_by_http_status m fetch method endpoint params res :
  fetch (request_url m endpoint params) (base_options m method) = Return res ->
  ((200 <= res_status res <= 299)%Z ->
     forall body_text, res_text res = Return body_text ->
       rawApiRequest m fetch method endpoint params = Return body_text)
  /\ (~ (200 <= res_status res <= 299)%Z ->
        rawApiRequest m fetch method endpoint params
          = Throw (TrackingTimeError (res_status res)
                     ("TrackingTime returned HTTP " ++ number_to_string (res_status res))))
  /\ (forall fetch' res',
         fetch' (request_url m endpoint params) (base_options m method) = Return res' ->
         res_status res' = res_status res ->
         res_text res' = res_text res ->
         rawApiRequest m fetch' method endpoint params
           = rawApiRequest m fetch method endpoint params).
Proof.
  intros Hfetch. split; [|split].
  - intros Hrange body_text Htext.
    unfold rawApiRequest. rewrite Hfetch. cbn [try_catch bind].
    unfold ok.
    destruct (Z.leb_spec 200 (res_status res)); [|lia].
    destruct (Z.leb_spec (res_status res) 299); [|lia].
    exact Htext.
  - intros Hout.
    unfold rawApiRequest. rewrite Hfetch. cbn [try_catch bind].
    unfold ok.
    destruct (Z.leb_spec 200 (res_status res));
      destruct (Z.leb_spec (res_status res) 299); try reflexivity.
    exfalso. apply Hout. lia.
  - intros fetch' res' Hfetch' Hstatus Htext.
    unfold rawApiRequest. rewrite Hfetch, Hfetch'. cbn [try_catch bind].
    unfold ok. rewrite Hstatus, Htext. reflexivity.
Qed.

Lemma rawApiRequest_by_http_status_witness :
  rawApiRequest Scenario.account
    (Scenario.serve "https://app.trackingtime.co/api/v4/12345/events/export?separator=%2C"
       (Scenario.text_response 200 "text/csv" Scenario.csv_body))
    "GET" "/events/export" (Some [("separator", ",")])
  = Return Scenario.csv_body
  /\ rawApiRequest Scenario.account
       (Scenario.serve "https://app.trackingtime.co/api/v4/12345/events/export?separator=%2C"
          (Scenario.json_response 502 (Scenario.envelope 200 (Some "ok") VNull)))
       "GET" "/events/export" (Some [("separator", ",")])
     = Throw (TrackingTimeError 502 "TrackingTime returned HTTP 502").
Proof.
  split.
  - apply (proj1 (rawApiRequest_by_http_status Scenario.account
                    (Scenario.serve
                       "https://app.trackingtime.co/api/v4/12345/events/export?separator=%2C"
                       (Scenario.text_response 200 "text/csv" Scenario.csv_body))
                    "GET" "/events/export" (Some [("separator", ",")])
                    (Scenario.text_response 200 "text/csv" Scenario.csv_body)
                    eq_refl)).
    + cbn. lia.
    + reflexivity.
  - apply (proj1 (proj2 (rawApiRequest_by_http_status Scenario.account
                    (Scenario.serve
                       "https://app.trackingtime.co/api/v4/12345/events/export?separator=%2C"
                       (Scenario.json_response 502 (Scenario.envelope 200 (Some "ok") VNull)))
                    "GET" "/events/export" (Some [("separator", ",")])
                    (Scenario.json_response 502 (Scenario.envelope 200 (Some "ok") VNull))
                    eq_refl))).
    cbn. lia.
Defined.

(** A slash put in front of an endpoint is the one that is taken off; an
    endpoint without one is left as it is. *)
Lemma strip_leading_slash_added (p : string) :
  strip_leading_slash ("/" ++ p) = p.
Proof. reflexivity. Qed.

Lemma strip_leading_slash_none (p : string) :
  prefix "/" p = false -> strip_leading_slash p = p.
Proof.
  destruct p as [|c rest]; [reflexivity|].
  cbn [prefix strip_leading_slash].
  destruct (Ascii.eqb_spec c "/") as [-> | Hc]; [|reflexivity].
  destruct (ascii_dec "/" "/") as [_ | Hne]; [|contradiction].
  destruct rest; discriminate.
Qed.

(* ================================================================== *)
(** ** Properties of start-up and of the tool boundary *)
(* ================================================================== *)

Lemma not_set_false (v : option string) :
  not_set v = false -> exists s, v = Some s /\ s <> EmptyString.
Proof.
  destruct v as [s|]; [|discriminate].
  intros H. exists s. split; [reflexivity|].
  intros ->. discriminate.
Qed.

(** C8. When [TT_APP_PASSWORD] or [TT_ACCOUNT_ID] is absent from the
    environment, the evaluation of the client module throws, and with it that
    of the module of the tools, which imports it: no handler comes to exist.
    Conversely, handlers exist only over an environment where both values
    are present and not empty, and they are bound to these values; the
    absence of a credential is therefore never met during a call. *)
Theorem missing_credentials_stop_startup (env : environment) :
  (env "TT_APP_PASSWORD" = None \/ env "TT_ACCOUNT_ID" = None ->
     exists text,
       ApiClient.evaluate env = Throw (Error "Error" text)
       /\ prefix "Missing required env vars: TT_APP_PASSWORD, TT_ACCOUNT_ID." text = true
       /\ Tools.evaluate env = Throw (Error "Error" text)
       /\ (forall tools, Tools.evaluate env <> Return tools))
  /\ (forall tools, Tools.evaluate env = Return tools ->
        exists password account,
          env "TT_APP_PASSWORD" = Some password /\ password <> EmptyString
          /\ env "TT_ACCOUNT_ID" = Some account /\ account <> EmptyString
          /\ tools = serve_tools {| TT_APP_PASSWORD := password; TT_ACCOUNT_ID := account |}).
Proof.
  split.
  - intros Habsent.
    assert (Hnot : not_set (env "TT_APP_PASSWORD") || not_set (env "TT_ACCOUNT_ID") = true).
    { destruct Habsent as [H | H]; rewrite H; cbn [not_set orb];
        [reflexivity | apply orb_true_r]. }
    eexists. unfold Tools.evaluate, ApiClient.evaluate. rewrite Hnot. cbn [bind].
    split; [reflexivity|]. split; [reflexivity|]. split; [reflexivity|].
    intros tools. discriminate.
  - intros tools. unfold Tools.evaluate, ApiClient.evaluate.
    destruct (not_set (env "TT_APP_PASSWORD")) eqn:Hpw; [discriminate|].
    destruct (not_set (env "TT_ACCOUNT_ID")) eqn:Hid; [discriminate|].
    cbn [orb bind]. intros Htools. injection Htools as <-.
    destruct (not_set_false _ Hpw) as [password [Epw Npw]].
    destruct (not_set_false _ Hid) as [account [Eid Nid]].
    exists password, account. rewrite Epw, Eid. cbn [env_value].
    repeat split; assumption || reflexivity.
Qed.

Lemma missing_credentials_stop_startup_witness :
  exists text,
    ApiClient.evaluate (fun name => if name =? "TT_ACCOUNT_ID" then Some "12345" else None)
      = Throw (Error "Error" text)
    /\ Tools.evaluate (fun name => if name =? "TT_ACCOUNT_ID" then Some "12345" else None)
       = Throw (Error "Error" text).
Proof.
  destruct (proj1 (missing_credentials_stop_startup
                     (fun name => if name =? "TT_ACCOUNT_ID" then Some "12345" else None))
              (or_introl eq_refl))
    as [text [Hclient [_ [Htools _]]]].
  exists text. split; assumption.
Defined.

(** Whatever its [try] block does, a handler returns. *)
Lemma handler_returns (block : completion value) :
  exists result, handler block = Return result.
Proof.
  destruct block as [d | e]; eexists; reflexivity.
Qed.

Lemma handler_catches (block : completion value) (err : thrown) :
  block = Throw err -> handler block = Return (errorResult err).
Proof.
  intros ->. reflexivity.
Qed.

(** C7. For every registered tool and all arguments, the handler returns and
    never throws. When the request it makes throws, it returns the result
    marked [isError] whose text is [formatError] of what was thrown: for a
    [TrackingTimeError] the message behind the prefix
    ["TrackingTime API error (<status>): "], for any other [Error] its
    message as it is, for any other value its rendering as a string. *)
Theorem handler_renders_every_failure m fetch (t : tool) (args : arguments t) :
  In t registerTools ->
  (exists result, invoke m fetch t args = Return result)
  /\ (forall err,
        apiRequest m fetch (call_method (request t args)) (call_endpoint (request t args))
          (call_params (request t args)) (call_body (request t args)) = Throw err ->
        invoke m fetch t args
          = Return {| content := [ {| type := "text"; text := Some (formatError err) |} ];
                      isError := Some true |})
  /\ (forall status message,
         formatError (TrackingTimeError status message)
           = "TrackingTime API error (" ++ number_to_string status ++ "): " ++ message)
  /\ (forall name message,
         formatError (Error name message) = message
         /\ formatError (DOMException name message) = message)
  /\ (forall v, formatError (Thrown v) = to_String v).
Proof.
  intros _. split; [apply handler_returns|]. split.
  - intros err Hreq. unfold invoke. cbv zeta.
    rewrite (handler_catches _ err Hreq). reflexivity.
  - split; [reflexivity|]. split; [intros; split; reflexivity | reflexivity].
Qed.

Lemma handler_renders_every_failure_witness :
  invoke Scenario.account Scenario.refuse tt_list_projects
    {| list_projects_filter := Some "ALL" |}
  = Return {| content := [ {| type := "text";
                              text := Some "TrackingTime API error (0): Network error: fetch failed" |} ];
              isError := Some true |}.
Proof.
  apply (proj1 (proj2 (handler_renders_every_failure Scenario.account Scenario.refuse
                         tt_list_projects {| list_projects_filter := Some "ALL" |}
                         (or_introl eq_refl)))
           (TrackingTimeError 0 "Network error: fetch failed")).
  reflexivity.
Defined.

(** The export handler calls [apiRequest], so a response that is no JSON
    envelope can only come back as an error. *)
Lemma export_needs_an_envelope m fetch args res err :
  (forall url options, fetch url options = Return res) ->
  res_json res = Throw err ->
  exists result,
    invoke m fetch tt_export_time_entries args = Return result
    /\ isError result = Some true.
Proof.
  intros Hfetch Hjson.
  unfold invoke, handler, apiRequest. cbv zeta.
  rewrite Hfetch. cbn [try_catch bind].
  destruct (includes "application/json"
              match content_type res with Some c => c | None => EmptyString end).
  - cbn [negb]. rewrite Hjson. cbn [bind try_catch]. eexists. split; reflexivity.
  - cbn [negb bind try_catch]. eexists. split; reflexivity.
Qed.

(** C3 (the code departs from it). On the delimited text of the scenario,
    served with status 200, the export tool returns an error result, not the
    text; [rawApiRequest], which the tool does not call, returns the text. *)
Theorem export_returns_error_on_delimited_text :
  let service :=
    Scenario.serve "https://app.trackingtime.co/api/v4/12345/events/export?separator=%2C"
      (Scenario.text_response 200 "text/csv" Scenario.csv_body) in
  invoke Scenario.account service tt_export_time_entries Scenario.export_comma
    = Return {| content :=
                  [ {| type := "text";
                       text := Some "TrackingTime API error (200): TrackingTime returned HTTP 200 with non-JSON response. The service may be temporarily unavailable." |} ];
                isError := Some true |}
  /\ rawApiRequest Scenario.account service "GET" "/events/export" (Some [("separator", ",")])
     = Return Scenario.csv_body.
Proof.
  cbv zeta. split; reflexivity.
Qed.

(* ================================================================== *)
(** ** Further properties of the transport client *)
(* ================================================================== *)

Lemma append_nonempty_l (s t : string) :
  s <> EmptyString -> s ++ t <> EmptyString.
Proof.
  destruct s as [|c s]; [congruence | discriminate].
Qed.

(** The message built from an envelope that reports an error is not empty. *)
Lemma envelope_text_nonempty (s : Z) (msg : option string) :
  let fallback := "API error (status " ++ number_to_string s ++ ")" in
  let apiMessage :=
    match msg with
    | Some t => if truthy_string t then t else fallback
    | None => fallback
    end in
  match lookup s ERROR_HINTS with
  | Some h => if truthy_string h then apiMessage ++ ". " ++ h else apiMessage
  | None => apiMessage
  end <> EmptyString.
Proof.
  cbv zeta.
  assert (Hmsg : match msg with
                 | Some t => if truthy_string t
                             then t
                             else "API error (status " ++ number_to_string s ++ ")"
                 | None => "API error (status " ++ number_to_string s ++ ")"
                 end <> EmptyString).
  { destruct msg as [t|]; [|discriminate].
    destruct t as [|c t]; discriminate. }
  destruct (lookup s ERROR_HINTS) as [h|]; [|exact Hmsg].
  destruct (truthy_string h); [|exact Hmsg].
  apply append_nonempty_l. exact Hmsg.
Qed.

(** X1. [apiRequest] returns a value only in one way: [fetch] fulfilled, the
    content type of the response includes ["application/json"], the body
    parsed, the envelope's status is 200, and the value is the envelope's
    [data]. *)
Theorem apiRequest_success_inversion m fetch method endpoint params body d :
  apiRequest m fetch method endpoint params body = Return d ->
  exists res ct env,
    fetch (request_url m endpoint params) (request_options m method body) = Return res
    /\ content_type res = Some ct
    /\ includes "application/json" ct = true
    /\ res_json res = Return env
    /\ status (response env) = 200%Z
    /\ data env = d.
Proof.
  unfold apiRequest.
  destruct (fetch (request_url m endpoint params) (request_options m method body))
    as [res | err] eqn:Hfetch; cbn [try_catch bind].
  - destruct (content_type res) as [ct|] eqn:Hct.
    + destruct (includes "application/json" ct) eqn:Hinc; cbn [negb]; [|discriminate].
      destruct (res_json res) as [env | e] eqn:Hbody; cbn [bind]; [|discriminate].
      destruct (Z.eqb_spec (status (response env)) 200) as [Hs | Hs]; cbn [negb];
        [|discriminate].
      intros Hret. injection Hret as <-.
      exists res, ct, env. repeat split; assumption || reflexivity.
    + cbn. discriminate.
  - unfold on_fetch_rejected.
    destruct (instanceof_DOMException err && (error_name err =? "AbortError"));
      cbn [bind]; discriminate.
Qed.

Lemma apiRequest_success_inversion_witness :
  exists res ct env,
    Scenario.serve "https://app.trackingtime.co/api/v4/12345/projects"
      (Scenario.json_response 200
         (Scenario.envelope 200 (Some "ok") Scenario.demo_projects))
      (request_url Scenario.account "/projects" None)
      (request_options Scenario.account "GET" None) = Return res
    /\ content_type res = Some ct
    /\ includes "application/json" ct = true
    /\ res_json res = Return env
    /\ status (response env) = 200%Z
    /\ data env = Scenario.demo_projects.
Proof.
  apply (apiRequest_success_inversion Scenario.account
           (Scenario.serve "https://app.trackingtime.co/api/v4/12345/projects"
              (Scenario.json_response 200
                 (Scenario.envelope 200 (Some "ok") Scenario.demo_projects)))
           "GET" "/projects" None None Scenario.demo_projects).
  reflexivity.
Defined.

(** What [apiRequest] throws, by the step that threw, in terms of what
    [res_json] gives: the body parsed and read as a [TTResponse]. *)
Lemma apiRequest_throw_cases m fetch method endpoint params body e :
  apiRequest m fetch method endpoint params body = Throw e ->
  (exists err msg,
      fetch (request_url m endpoint params) (request_options m method body) = Throw err
      /\ e = TrackingTimeError 0 msg /\ msg <> EmptyString)
  \/ (exists res msg,
         fetch (request_url m endpoint params) (request_options m method body) = Return res
         /\ includes "application/json"
              (match content_type res with Some c => c | None => EmptyString end) = false
         /\ e = TrackingTimeError (res_status res) msg /\ msg <> EmptyString)
  \/ (exists res,
         fetch (request_url m endpoint params) (request_options m method body) = Return res
         /\ includes "application/json"
              (match content_type res with Some c => c | None => EmptyString end) = true
         /\ res_json res = Throw e)
  \/ (exists res env msg,
         fetch (request_url m endpoint params) (request_options m method body) = Return res
         /\ res_json res = Return env
         /\ status (response env) <> 200%Z
         /\ e = TrackingTimeError (status (response env)) msg /\ msg <> EmptyString).
Proof.
  unfold apiRequest.
  destruct (fetch (request_url m endpoint params) (request_options m method body))
    as [res | err] eqn:Hfetch; cbn [try_catch bind].
  - destruct (includes "application/json"
                match content_type res with Some c => c | None => EmptyString end)
      eqn:Hinc; cbn [negb].
    + destruct (res_json res) as [env | e'] eqn:Hbody; cbn [bind].
      * destruct (Z.eqb_spec (status (response env)) 200) as [Hs | Hs]; cbn [negb];
          [discriminate|].
        intros Hthrow. injection Hthrow as <-.
        right. right. right. exists res, env. eexists.
        split; [reflexivity|]. split; [exact Hbody|]. split; [exact Hs|].
        split; [reflexivity|].
        apply (envelope_text_nonempty (status (response env)) (message (response env))).
      * intros Hthrow. injection Hthrow as <-.
        right. right. left. exists res. repeat split; reflexivity || assumption.
    + intros Hthrow. injection Hthrow as <-.
      right. left. exists res. eexists.
      split; [reflexivity|]. split; [exact Hinc|]. split; [reflexivity | discriminate].
  - unfold on_fetch_rejected.
    destruct (instanceof_DOMException err && (error_name err =? "AbortError"));
      cbn [bind]; intros Hthrow; injection Hthrow as <-;
      left; exists err; eexists; (split; [reflexivity|]);
      (split; [reflexivity | discriminate]).
Qed.

(** X3. For a response whose content type is JSON, [apiRequest] goes by the
    envelope and not by the HTTP status: two exchanges that differ in the HTTP
    status alone have the same outcome. *)
Theorem apiRequest_ignores_http_status
    m fetch fetch' method endpoint params body res res' ct :
  fetch (request_url m endpoint params) (request_options m method body) = Return res ->
  fetch' (request_url m endpoint params) (request_options m method body) = Return res' ->
  content_type res = Some ct ->
  content_type res' = Some ct ->
  includes "application/json" ct = true ->
  res_json res' = res_json res ->
  apiRequest m fetch' method endpoint params body
    = apiRequest m fetch method endpoint params body.
Proof.
  intros Hfetch Hfetch' Hct Hct' Hinc Hbody.
  unfold apiRequest. rewrite Hfetch, Hfetch'. cbn [try_catch bind].
  rewrite Hct, Hct', Hinc, Hbody. reflexivity.
Qed.

Lemma apiRequest_ignores_http_status_witness :
  apiRequest Scenario.account
    (Scenario.serve "https://app.trackingtime.co/api/v4/12345/projects"
       (Scenario.json_response 500
          (Scenario.envelope 200 (Some "ok") Scenario.demo_projects)))
    "GET" "/projects" None None
  = apiRequest Scenario.account
      (Scenario.serve "https://app.trackingtime.co/api/v4/12345/projects"
         (Scenario.json_response 200
            (Scenario.envelope 200 (Some "ok") Scenario.demo_projects)))
      "GET" "/projects" None None.
Proof.
  apply (apiRequest_ignores_http_status Scenario.account
           (Scenario.serve "https://app.trackingtime.co/api/v4/12345/projects"
              (Scenario.json_response 200
                 (Scenario.envelope 200 (Some "ok") Scenario.demo_projects)))
           (Scenario.serve "https://app.trackingtime.co/api/v4/12345/projects"
              (Scenario.json_response 500
                 (Scenario.envelope 200 (Some "ok") Scenario.demo_projects)))
           "GET" "/projects" None None
           (Scenario.json_response 200
              (Scenario.envelope 200 (Some "ok") Scenario.demo_projects))
           (Scenario.json_response 500
              (Scenario.envelope 200 (Some "ok") Scenario.demo_projects))
           "application/json; charset=utf-8");
    reflexivity.
Defined.

(** X4. [rawApiRequest] returns a text only when [fetch] fulfilled with a
    status from 200 to 299 and the text is the body read; what it throws is a
    [TrackingTimeError] of status 0 after [fetch] rejected, a
    [TrackingTimeError] of the HTTP status outside 200 to 299, or the
    rejection of [res.text()] itself. *)
Theorem rawApiRequest_outcomes m fetch method endpoint params :
  (forall t,
      rawApiRequest m fetch method endpoint params = Return t ->
      exists res,
        fetch (request_url m endpoint params) (base_options m method) = Return res
        /\ (200 <= res_status res <= 299)%Z
        /\ res_text res = Return t)
  /\ (forall e,
         rawApiRequest m fetch method endpoint params = Throw e ->
         (exists err msg,
             fetch (request_url m endpoint params) (base_options m method) = Throw err
             /\ e = TrackingTimeError 0 msg /\ msg <> EmptyString)
         \/ (exists res,
                fetch (request_url m endpoint params) (base_options m method) = Return res
                /\ ~ (200 <= res_status res <= 299)%Z
                /\ e = TrackingTimeError (res_status res)
                         ("TrackingTime returned HTTP " ++ number_to_string (res_status res)))
         \/ (exists res,
                fetch (request_url m endpoint params) (base_options m method) = Return res
                /\ (200 <= res_status res <= 299)%Z
                /\ res_text res = Throw e)).
Proof.
  assert (Hok : forall res, ok res = true <-> (200 <= res_status res <= 299)%Z).
  { intros res. unfold ok. rewrite andb_true_iff, !Z.leb_le. tauto. }
  split.
  - intros t. unfold rawApiRequest.
    destruct (fetch (request_url m endpoint params) (base_options m method))
      as [res | err] eqn:Hfetch; cbn [try_catch bind].
    + destruct (ok res) eqn:Hres; cbn [negb]; [|discriminate].
      intros Htext. exists res. split; [reflexivity|].
      split; [apply Hok; exact Hres | exact Htext].
    + unfold on_fetch_rejected.
      destruct (instanceof_DOMException err && (error_name err =? "AbortError"));
        cbn [bind]; discriminate.
  - intros e. unfold rawApiRequest.
    destruct (fetch (request_url m endpoint params) (base_options m method))
      as [res | err] eqn:Hfetch; cbn [try_catch bind].
    + destruct (ok res) eqn:Hres; cbn [negb].
      * intros Htext. right. right. exists res.
        split; [reflexivity|]. split; [apply Hok; exact Hres | exact Htext].
      * intros Hthrow. injection Hthrow as <-. right. left. exists res.
        split; [reflexivity|]. split; [|reflexivity].
        intros Hrange. apply Hok in Hrange. congruence.
    + unfold on_fetch_rejected.
      destruct (instanceof_DOMException err && (error_name err =? "AbortError"));
        cbn [bind]; intros Hthrow; injection Hthrow as <-;
        left; exists err; eexists; (split; [reflexivity|]);
        (split; [reflexivity | discriminate]).
Qed.

Lemma rawApiRequest_outcomes_witness :
  exists res,
    Scenario.serve "https://app.trackingtime.co/api/v4/12345/events/export?separator=%2C"
      (Scenario.text_response 200 "text/csv" Scenario.csv_body)
      (request_url Scenario.account "/events/export" (Some [("separator", ",")]))
      (base_options Scenario.account "GET") = Return res
    /\ (200 <= res_status res <= 299)%Z
    /\ res_text res = Return Scenario.csv_body.
Proof.
  apply (proj1 (rawApiRequest_outcomes Scenario.account
                  (Scenario.serve
                     "https://app.trackingtime.co/api/v4/12345/events/export?separator=%2C"
                     (Scenario.text_response 200 "text/csv" Scenario.csv_body))
                  "GET" "/events/export" (Some [("separator", ",")]))
           Scenario.csv_body).
  reflexivity.
Defined.

Lemma json_serialize_defined (gap indent : string) (v : value) :
  v <> VUndefined -> exists s, json_serialize gap indent v = Some s.
Proof.
  destruct v as [| | [|] | n | s | items | fields]; intros Hv;
    try (eexists; reflexivity).
  contradiction.
Qed.

(** X5. The options of a request carry a body exactly when the caller gave a
    truthy one and the method is ["POST"] or ["PUT"], spelled so; the body is
    then its JSON text. The method, the headers and the signal are the same
    with and without a body. *)
Theorem request_body_sent_iff m (method : string) (b : option value) :
  (body (request_options m method b) <> None
   <-> exists v, b = Some v /\ truthy v = true /\ (method = "POST" \/ method = "PUT"))
  /\ (forall v, b = Some v -> truthy v = true -> method = "POST" \/ method = "PUT" ->
        body (request_options m method b) = JSON_stringify v)
  /\ ApiClient.method (request_options m method b) = method
  /\ headers (request_options m method b) = headers (base_options m method)
  /\ signal (request_options m method b) = signal (base_options m method).
Proof.
  assert (Hmethod : (method =? "POST") || (method =? "PUT") = true
                    <-> method = "POST" \/ method = "PUT").
  { rewrite orb_true_iff, !String.eqb_eq. tauto. }
  unfold request_options. cbv zeta.
  destruct b as [v|].
  - destruct (truthy v) eqn:Hv; cbn [andb].
    + destruct ((method =? "POST") || (method =? "PUT")) eqn:Hm.
      * cbn [body ApiClient.method headers signal]. repeat split; try reflexivity.
        -- intros _. exists v. split; [reflexivity|]. split; [exact Hv|].
           apply Hmethod. reflexivity.
        -- intros _.
           assert (Hdef : v <> VUndefined) by (intros ->; discriminate).
           destruct (json_serialize_defined EmptyString EmptyString v Hdef) as [s Hs].
           unfold JSON_stringify. rewrite Hs. discriminate.
        -- intros v' Hv' _ _. injection Hv' as <-. reflexivity.
      * repeat split; try reflexivity.
        -- intros H. exfalso. apply H. reflexivity.
        -- intros [v' [_ [_ Hpp]]]. apply Hmethod in Hpp. discriminate.
        -- intros v' _ _ Hpp. apply Hmethod in Hpp. discriminate.
    + repeat split; try reflexivity.
      * intros H. exfalso. apply H. reflexivity.
      * intros [v' [Hv' [Ht _]]]. injection Hv' as <-. congruence.
      * intros v' Hv' Ht _. injection Hv' as <-. congruence.
  - repeat split; try reflexivity.
    + intros H. exfalso. apply H. reflexivity.
    + intros [v' [Hv' _]]. discriminate.
    + intros v' Hv'. discriminate.
Qed.

Lemma request_body_sent_iff_witness :
  body (request_options Scenario.account "PUT" (Some (VObj [])))
  = JSON_stringify (VObj []).
Proof.
  apply (proj1 (proj2 (request_body_sent_iff Scenario.account "PUT" (Some (VObj []))))
           (VObj []) eq_refl eq_refl (or_intror eq_refl)).
Defined.

(** X8. The client module evaluates to its constants exactly when both
    variables are set to strings that are not empty, and the constants are
    these strings: an empty value stops the start like a missing one. The
    tools are then the handlers of [registerTools] over these constants. *)
Theorem startup_succeeds_iff (env : environment) (m : constants) :
  (ApiClient.evaluate env = Return m
   <-> env "TT_APP_PASSWORD" = Some (TT_APP_PASSWORD m)
       /\ TT_APP_PASSWORD m <> EmptyString
       /\ env "TT_ACCOUNT_ID" = Some (TT_ACCOUNT_ID m)
       /\ TT_ACCOUNT_ID m <> EmptyString)
  /\ (ApiClient.evaluate env = Return m -> Tools.evaluate env = Return (serve_tools m))
  /\ (env "TT_APP_PASSWORD" = Some EmptyString \/ env "TT_ACCOUNT_ID" = Some EmptyString ->
      forall m', ApiClient.evaluate env <> Return m').
Proof.
  split; [|split].
  - unfold ApiClient.evaluate. split.
    + destruct (not_set (env "TT_APP_PASSWORD")) eqn:Hpw; [discriminate|].
      destruct (not_set (env "TT_ACCOUNT_ID")) eqn:Hid; [discriminate|].
      cbn [orb]. intros Hm. injection Hm as <-.
      destruct (not_set_false _ Hpw) as [password [Epw Npw]].
      destruct (not_set_false _ Hid) as [account [Eid Nid]].
      rewrite Epw, Eid. cbn. repeat split; assumption.
    + intros [Epw [Npw [Eid Nid]]]. rewrite Epw, Eid. cbn [not_set].
      rewrite (truthy_string_nonempty _ Npw), (truthy_string_nonempty _ Nid).
      cbn. destruct m. reflexivity.
  - intros Hm. unfold Tools.evaluate. rewrite Hm. reflexivity.
  - intros Hempty m'. unfold ApiClient.evaluate.
    assert (Hnot : not_set (env "TT_APP_PASSWORD") || not_set (env "TT_ACCOUNT_ID") = true).
    { destruct Hempty as [H | H]; rewrite H; cbn [not_set orb];
        [reflexivity | apply orb_true_r]. }
    rewrite Hnot. discriminate.
Qed.

Lemma startup_succeeds_iff_witness :
  Tools.evaluate
    (fun name => if name =? "TT_ACCOUNT_ID" then Some "12345"
                 else if name =? "TT_APP_PASSWORD" then Some "app-password" else None)
  = Return (serve_tools Scenario.account).
Proof.
  apply (proj1 (proj2 (startup_succeeds_iff
                         (fun name => if name =? "TT_ACCOUNT_ID" then Some "12345"
                                      else if name =? "TT_APP_PASSWORD"
                                           then Some "app-password" else None)
                         Scenario.account))).
  reflexivity.
Defined.

Import Text.

Lemma string_app_assoc (s t u : string) : (s ++ t) ++ u = s ++ t ++ u.
Proof.
  induction s as [|c s IH]; cbn [append]; [reflexivity | rewrite IH; reflexivity].
Qed.

Lemma string_app_empty_r (s : string) : s ++ EmptyString = s.
Proof.
  induction s as [|c s IH]; cbn [append]; [reflexivity | rewrite IH; reflexivity].
Qed.

Lemma all_chars_app (p : ascii -> bool) (s t : string) :
  all_chars p (s ++ t) = all_chars p s && all_chars p t.
Proof.
  induction s as [|c s IH]; cbn [append all_chars]; [reflexivity|].
  rewrite IH, andb_assoc. reflexivity.
Qed.

Lemma count_char_app (c : ascii) (s t : string) :
  count_char c (s ++ t) = count_char c s + count_char c t.
Proof.
  induction s as [|d s IH]; cbn [append count_char]; [reflexivity|].
  rewrite IH. lia.
Qed.

Lemma urlencode_byte_encoded (c : ascii) :
  all_chars encoded_char (urlencode_byte c) = true.
Proof.
  destruct c as [[] [] [] [] [] [] [] []]; reflexivity.
Qed.

Lemma urlencode_encoded (s : string) :
  all_chars encoded_char (urlencode s) = true.
Proof.
  induction s as [|c s IH]; cbn [urlencode]; [reflexivity|].
  rewrite all_chars_app, urlencode_byte_encoded, IH. reflexivity.
Qed.

Lemma encoded_char_is_no_separator (c : ascii) :
  encoded_char c = true -> Ascii.eqb c "=" = false /\ Ascii.eqb c "&" = false.
Proof.
  destruct c as [[] [] [] [] [] [] [] []]; cbv; intros H;
    (discriminate H || (split; reflexivity)).
Qed.

Lemma encoded_has_no_separator (s : string) :
  all_chars encoded_char s = true ->
  count_char "=" s = 0 /\ count_char "&" s = 0.
Proof.
  induction s as [|c s IH]; cbn [all_chars count_char]; [split; reflexivity|].
  intros H. apply andb_true_iff in H. destruct H as [Hc Hs].
  destruct (encoded_char_is_no_separator c Hc) as [-> ->].
  destruct (IH Hs) as [-> ->]. split; reflexivity.
Qed.

Lemma all_chars_weaken (p q : ascii -> bool) (s : string) :
  (forall c, p c = true -> q c = true) ->
  all_chars p s = true -> all_chars q s = true.
Proof.
  intros Hpq. induction s as [|c s IH]; cbn [all_chars]; [reflexivity|].
  intros H. apply andb_true_iff in H. destruct H as [Hc Hs].
  rewrite (Hpq c Hc), (IH Hs). reflexivity.
Qed.

(** One [key=value] of the query string. *)
Lemma encoded_pair (kv : string * string) :
  let pair := urlencode (fst kv) ++ "=" ++ urlencode (snd kv) in
  all_chars (fun c => encoded_char c || Ascii.eqb c "=" || Ascii.eqb c "&") pair = true
  /\ count_char "=" pair = 1
  /\ count_char "&" pair = 0.
Proof.
  cbv zeta.
  pose proof (urlencode_encoded (fst kv)) as Hk.
  pose proof (urlencode_encoded (snd kv)) as Hv.
  destruct (encoded_has_no_separator _ Hk) as [Hk1 Hk2].
  destruct (encoded_has_no_separator _ Hv) as [Hv1 Hv2].
  assert (Hweak : forall c, encoded_char c = true ->
                    encoded_char c || Ascii.eqb c "=" || Ascii.eqb c "&" = true)
    by (intros c ->; reflexivity).
  rewrite !all_chars_app, !count_char_app, Hk1, Hk2, Hv1, Hv2.
  rewrite (all_chars_weaken _ _ _ Hweak Hk), (all_chars_weaken _ _ _ Hweak Hv).
  repeat split.
Qed.

Lemma concat_cons_cons (sep x y : string) (l : list string) :
  String.concat sep (x :: y :: l) = x ++ sep ++ String.concat sep (y :: l).
Proof. reflexivity. Qed.

Lemma query_string_counts (ps : list (string * string)) :
  ps <> [] ->
  all_chars (fun c => encoded_char c || Ascii.eqb c "=" || Ascii.eqb c "&")
    (URLSearchParams_toString ps) = true
  /\ count_char "=" (URLSearchParams_toString ps) = length ps
  /\ count_char "&" (URLSearchParams_toString ps) = length ps - 1.
Proof.
  unfold URLSearchParams_toString.
  induction ps as [|kv ps IH]; [congruence|]. intros _.
  destruct (encoded_pair kv) as [Ha [He Hs]]. cbv zeta in Ha, He, Hs.
  destruct ps as [|kv' ps].
  - cbn [map String.concat length]. repeat split; assumption.
  - assert (Hne : kv' :: ps <> []) by discriminate.
    destruct (IH Hne) as [Ia [Ie Is]].
    cbn [map] in *. rewrite concat_cons_cons.
    set (pair := urlencode (fst kv) ++ "=" ++ urlencode (snd kv)) in *.
    set (rest := String.concat "&" _) in *.
    rewrite (all_chars_app _ pair), !(count_char_app _ pair), Ha, He, Hs.
    cbn [append all_chars count_char]. rewrite Ia, Ie, Is.
    cbn [length]. repeat split; try reflexivity.
    cbn. lia.
Qed.

(** X6. With parameters, the URL is the base URL, a slash, the endpoint
    without its leading slash, a question mark and the query string. The
    query string holds encoded characters and the separators [=] and [&]
    only, with one [=] for each parameter and one [&] between two: no key
    and no value can add a parameter or end the query. *)
Theorem query_string_is_encoded m (endpoint : string) (ps : list (string * string)) :
  ps <> [] ->
  request_url m endpoint (Some ps)
    = BASE_URL m ++ "/" ++ strip_leading_slash endpoint ++ "?" ++ URLSearchParams_toString ps
  /\ all_chars (fun c => encoded_char c || Ascii.eqb c "=" || Ascii.eqb c "&")
       (URLSearchParams_toString ps) = true
  /\ count_char "=" (URLSearchParams_toString ps) = length ps
  /\ count_char "&" (URLSearchParams_toString ps) = length ps - 1.
Proof.
  intros Hne. split; [|apply query_string_counts; exact Hne].
  unfold request_url. destruct ps as [|kv ps]; [congruence|].
  cbn [length Nat.ltb Nat.leb]. cbv zeta.
  rewrite !string_app_assoc. reflexivity.
Qed.

Lemma query_string_is_encoded_witness :
  request_url Scenario.account "/events"
    (Some [("filter", "USER"); ("from", "2024-01-01&id=7"); ("to", "a=b c")])
  = "https://app.trackingtime.co/api/v4/12345/events?filter=USER&from=2024-01-01%26id%3D7&to=a%3Db+c"
  /\ count_char "&"
       (URLSearchParams_toString
          [("filter", "USER"); ("from", "2024-01-01&id=7"); ("to", "a=b c")]) = 2.
Proof.
  destruct (query_string_is_encoded Scenario.account "/events"
              [("filter", "USER"); ("from", "2024-01-01&id=7"); ("to", "a=b c")])
    as [Hurl [_ [_ Hamp]]]; [discriminate|].
  split; [exact Hurl | exact Hamp].
Defined.

(* ================================================================== *)
(** ** Further properties of the tools *)
(* ================================================================== *)

Ltac call_shape_case :=
  let args := fresh "args" in
  let b := fresh "b" in
  let H := fresh "H" in
  intros args; simpl;
  split; [auto 6|];
  split; [reflexivity|];
  intros b H;
  first [ discriminate H
        | injection H as <-;
          split; [first [left; reflexivity | right; reflexivity]|];
          split; reflexivity ].

(** The call every registered tool makes, whatever its arguments. *)
Lemma registered_call_shape (t : tool) :
  In t registerTools ->
  forall args : arguments t,
    (call_method (request t args) = "GET" \/ call_method (request t args) = "POST"
     \/ call_method (request t args) = "PUT" \/ call_method (request t args) = "DELETE")
    /\ prefix "/" (call_endpoint (request t args)) = true
    /\ (forall b, call_body (request t args) = Some b ->
          (call_method (request t args) = "POST" \/ call_method (request t args) = "PUT")
          /\ call_params (request t args) = None
          /\ truthy b = true).
Proof.
  intros Hin. unfold registerTools in Hin. cbn [In] in Hin.
  repeat (destruct Hin as [<- | Hin]; [call_shape_case|]).
  contradiction.
Qed.

(** X11. Every registered tool calls with one of the four methods. When it
    passes a body it passes no query parameters, the method is ["POST"] or
    ["PUT"] and the body is truthy, so the request carries its JSON text:
    no tool's body is left out by the guard of [apiRequest]. When it passes
    no body the request has none. *)
Theorem registered_bodies_are_sent m (t : tool) (args : arguments t) :
  In t registerTools ->
  (call_method (request t args) = "GET" \/ call_method (request t args) = "POST"
   \/ call_method (request t args) = "PUT" \/ call_method (request t args) = "DELETE")
  /\ (forall b, call_body (request t args) = Some b ->
        call_params (request t args) = None
        /\ exists text,
             JSON_stringify b = Some text
             /\ body (request_options m (call_method (request t args))
                        (call_body (request t args))) = Some text)
  /\ (call_body (request t args) = None ->
        body (request_options m (call_method (request t args))
                (call_body (request t args))) = None).
Proof.
  intros Hin.
  destruct (registered_call_shape t Hin args) as [Hmethod [_ Hbody]].
  split; [exact Hmethod|]. split.
  - intros b Hb. destruct (Hbody b Hb) as [Hpp [Hparams Htruthy]].
    split; [exact Hparams|].
    assert (Hdef : b <> VUndefined) by (intros ->; discriminate).
    destruct (json_serialize_defined EmptyString EmptyString b Hdef) as [text Htext].
    exists text. split; [exact Htext|].
    rewrite Hb. unfold request_options. cbv zeta. rewrite Htruthy.
    destruct Hpp as [-> | ->]; cbn; exact Htext.
  - intros ->. reflexivity.
Qed.

Lemma registered_bodies_are_sent_witness :
  body (request_options Scenario.account "PUT"
          (call_body (request tt_mark_billed {| mark_billed_entry_ids := [] |})))
  = Some "[]".
Proof.
  destruct (proj1 (proj2 (registered_bodies_are_sent Scenario.account tt_mark_billed
                            {| mark_billed_entry_ids := [] |}
                            ltac:(unfold registerTools; cbn [In]; tauto)))
              (VArr []) eq_refl)
    as [_ [text [Htext Hsent]]].
  injection Htext as <-. exact Hsent.
Defined.

Lemma restore_leading_slash (endpoint : string) :
  prefix "/" endpoint = true -> "/" ++ strip_leading_slash endpoint = endpoint.
Proof.
  destruct endpoint as [|c rest]; [discriminate|].
  cbn [prefix strip_leading_slash].
  destruct (ascii_dec "/" c) as [<- | Hc]; [reflexivity | discriminate].
Qed.

(** X12. The endpoint of every registered tool begins with a slash, so the
    URL of its request is the base URL followed by the endpoint as the
    handler wrote it, and by a question mark and the query string when it
    passes parameters and they are not empty. *)
Theorem registered_urls m (t : tool) (args : arguments t) :
  In t registerTools ->
  request_url m (call_endpoint (request t args)) (call_params (request t args))
  = BASE_URL m ++ call_endpoint (request t args)
      ++ match call_params (request t args) with
         | Some (p :: ps) => "?" ++ URLSearchParams_toString (p :: ps)
         | _ => EmptyString
         end.
Proof.
  intros Hin.
  destruct (registered_call_shape t Hin args) as [_ [Hslash _]].
  pose proof (restore_leading_slash _ Hslash) as Hrestore.
  unfold request_url. cbv zeta.
  set (rest := strip_leading_slash (call_endpoint (request t args))) in *.
  rewrite <- Hrestore.
  destruct (call_params (request t args)) as [[|p ps]|];
    cbn [length Nat.ltb Nat.leb]; rewrite ?string_app_assoc, ?string_app_empty_r;
    reflexivity.
Qed.

Lemma registered_urls_witness :
  request_url Scenario.account
    (call_endpoint (request tt_get_user_trackables
                      {| get_user_trackables_user_id := 7;
                         get_user_trackables_only_favorites := Some true;
                         get_user_trackables_include_tasks := Some false;
                         get_user_trackables_project_id := Some 0%Z |}))
    (call_params (request tt_get_user_trackables
                    {| get_user_trackables_user_id := 7;
                       get_user_trackables_only_favorites := Some true;
                       get_user_trackables_include_tasks := Some false;
                       get_user_trackables_project_id := Some 0%Z |}))
  = "https://app.trackingtime.co/api/v4/12345/users/7/trackables?only_favorites=true&project_id=0".
Proof.
  rewrite (registered_urls Scenario.account tt_get_user_trackables
             {| get_user_trackables_user_id := 7;
                get_user_trackables_only_favorites := Some true;
                get_user_trackables_include_tasks := Some false;
                get_user_trackables_project_id := Some 0%Z |}
             ltac:(unfold registerTools; cbn [In]; tauto)).
  reflexivity.
Defined.

(** X13. The names under which the tools are registered are pairwise
    different. *)
Theorem registered_names_are_unique :
  NoDup (map name registerTools).
Proof.
  assert (H : nodup string_dec (map name registerTools) = map name registerTools)
    by (vm_compute; reflexivity).
  rewrite <- H. apply NoDup_nodup.
Qed.

Lemma JSON_stringify_indent2_undefined (d : value) :
  JSON_stringify_indent2 d = None <-> d = VUndefined.
Proof.
  split.
  - destruct d as [| | [|] | n | s | items | fields]; cbn; intros H;
      reflexivity || discriminate H.
  - intros ->. reflexivity.
Qed.

(** X9. The result a handler returns tells how its request ended: it is
    marked [isError] exactly when the request threw, and has no [isError]
    exactly when the request returned; it then holds the value rendered by
    [JSON.stringify] with an indentation of 2, which is no text at all exactly
    when the value is [undefined] (an envelope of status 200 without
    [data]). *)
Theorem invoke_outcomes m fetch (t : tool) (args : arguments t) (r : CallToolResult) :
  invoke m fetch t args = Return r ->
  (isError r = Some true
   <-> exists e,
         apiRequest m fetch (call_method (request t args)) (call_endpoint (request t args))
           (call_params (request t args)) (call_body (request t args)) = Throw e)
  /\ (isError r = None
      <-> exists d,
            apiRequest m fetch (call_method (request t args)) (call_endpoint (request t args))
              (call_params (request t args)) (call_body (request t args)) = Return d)
  /\ (forall d,
         apiRequest m fetch (call_method (request t args)) (call_endpoint (request t args))
           (call_params (request t args)) (call_body (request t args)) = Return d ->
         content r = [ {| type := "text"; text := JSON_stringify_indent2 d |} ]
         /\ (JSON_stringify_indent2 d = None <-> d = VUndefined)).
Proof.
  unfold invoke, handler. cbv zeta.
  destruct (apiRequest m fetch (call_method (request t args)) (call_endpoint (request t args))
              (call_params (request t args)) (call_body (request t args)))
    as [d | e]; cbn [bind try_catch]; intros Hr; injection Hr as <-.
  - cbn [toolResult errorResult isError content]. split; [|split].
    + split; [discriminate | intros [e He]; discriminate He].
    + split; [intros _; exists d; reflexivity | reflexivity].
    + intros d' Hd. injection Hd as <-.
      split; [reflexivity | apply JSON_stringify_indent2_undefined].
  - cbn [toolResult errorResult isError content]. split; [|split].
    + split; [intros _; exists e; reflexivity | reflexivity].
    + split; [discriminate | intros [d Hd]; discriminate Hd].
    + intros d Hd. discriminate Hd.
Qed.

Lemma invoke_outcomes_witness :
  content {| content := [ {| type := "text"; text := None |} ]; isError := None |}
  = [ {| type := "text"; text := JSON_stringify_indent2 VUndefined |} ].
Proof.
  apply (proj2 (proj2 (invoke_outcomes Scenario.account
                         (Scenario.serve "https://app.trackingtime.co/api/v4/12345/tasks/close/9"
                            (Scenario.json_response 200
                               (Scenario.envelope 200 (Some "ok") VUndefined)))
                         tt_close_task {| close_task_id := 9 |}
                         {| content := [ {| type := "text"; text := None |} ];
                            isError := None |}
                         eq_refl))
           VUndefined eq_refl).
Defined.

(** What [apiRequest] throws is a [TrackingTimeError] with a message, or
    what [res_json] threw. *)
Lemma apiRequest_throws_typed_or_parse m fetch method endpoint params body e :
  apiRequest m fetch method endpoint params body = Throw e ->
  (exists s msg, e = TrackingTimeError s msg /\ msg <> EmptyString)
  \/ (exists res,
         fetch (request_url m endpoint params) (request_options m method body) = Return res
         /\ res_json res = Throw e).
Proof.
  unfold apiRequest.
  destruct (fetch (request_url m endpoint params) (request_options m method body))
    as [res | err] eqn:Hfetch; cbn [try_catch bind].
  - destruct (includes "application/json"
                match content_type res with Some c => c | None => EmptyString end);
      cbn [negb].
    + destruct (res_json res) as [env | e'] eqn:Hbody; cbn [bind].
      * destruct (Z.eqb_spec (status (response env)) 200) as [Hs | Hs]; cbn [negb];
          [discriminate|].
        intros Hthrow. injection Hthrow as <-. left. eexists. eexists.
        split; [reflexivity|].
        apply (envelope_text_nonempty (status (response env)) (message (response env))).
      * intros Hthrow. injection Hthrow as <-. right. exists res.
        split; [reflexivity | exact Hbody].
    + intros Hthrow. injection Hthrow as <-. left. eexists. eexists.
      split; [reflexivity | discriminate].
  - unfold on_fetch_rejected.
    destruct (instanceof_DOMException err && (error_name err =? "AbortError"));
      cbn [bind]; intros Hthrow; injection Hthrow as <-;
      left; eexists; eexists; (split; [reflexivity | discriminate]).
Qed.

(** X14. An optional argument that a handler tests with [if (x)] is left
    out of the request when it is an empty string, 0 or [false], as when it
    is not given; one that it tests with [x !== undefined] is sent even
    then. *)
Theorem falsy_optional_arguments :
  (forall project service,
      request tt_create_project
        {| create_project_name := project;
           create_project_customer_name := Some EmptyString;
           create_project_service_name := service;
           create_project_template_id := Some 0%Z |}
      = request tt_create_project
          {| create_project_name := project;
             create_project_customer_name := None;
             create_project_service_name := service;
             create_project_template_id := None |})
  /\ (forall filter,
         request tt_list_users
           {| list_users_filter := filter; list_users_include_teams := Some false |}
         = request tt_list_users
             {| list_users_filter := filter; list_users_include_teams := None |})
  /\ call_params (request tt_list_tasks
                    {| list_tasks_filter := Some EmptyString;
                       list_tasks_project_id := Some 0%Z |})
     = Some [("project_id", "0")]
  /\ (forall id,
         call_params (request tt_delete_task
                        {| delete_task_id := id; delete_task_delete_all := Some false |})
         = Some [("delete_all", "false")]).
Proof.
  repeat split.
Qed.

Lemma string_app_inv_head (s t u : string) : s ++ t = s ++ u -> t = u.
Proof.
  induction s as [|c s IH]; cbn [append]; [trivial|].
  intros H. injection H as H. exact (IH H).
Qed.

Lemma string_length_app (s t : string) :
  String.length (s ++ t) = String.length s + String.length t.
Proof.
  induction s as [|c s IH]; cbn [append String.length]; [reflexivity|].
  rewrite IH. reflexivity.
Qed.

Lemma string_app_inv_tail (s t u : string) : s ++ u = t ++ u -> s = t.
Proof.
  revert t. induction s as [|c s IH]; intros [|d t] H; cbn [append] in H.
  - reflexivity.
  - exfalso. apply (f_equal String.length) in H.
    cbn [String.length] in H. rewrite string_length_app in H. lia.
  - exfalso. apply (f_equal String.length) in H.
    cbn [String.length] in H. rewrite string_length_app in H. lia.
  - injection H as -> H. rewrite (IH t H). reflexivity.
Qed.

Lemma number_to_string_inj (a b : Z) :
  number_to_string a = number_to_string b -> a = b.
Proof.
  unfold number_to_string. intros H.
  assert (Hnonnil : forall z, Z.to_int z <> Decimal.Pos Decimal.Nil
                              /\ Z.to_int z <> Decimal.Neg Decimal.Nil).
  { intros [|p|p]; cbn; split; try discriminate;
      intros Hp; injection Hp as Hp; exact (Unsigned.to_uint_nonnil p Hp). }
  apply DecimalZ.to_int_inj.
  assert (Hsome : Some (Z.to_int a) = Some (Z.to_int b)).
  { rewrite <- (NilZero.isi (Z.to_int a)) by apply Hnonnil.
    rewrite <- (NilZero.isi (Z.to_int b)) by apply Hnonnil.
    rewrite H. reflexivity. }
  injection Hsome as Hsome. exact Hsome.
Qed.

(** X15. An endpoint that a handler builds around an id, as in
    [`/users/${id}/trackables`], keeps the ids apart: two ids give the same
    URL only when they are equal. *)
Theorem id_in_endpoint_is_injective m (before after : string) (a b : Z)
    (params : option (list (string * string))) :
  prefix "/" before = true ->
  request_url m (before ++ number_to_string a ++ after) params
    = request_url m (before ++ number_to_string b ++ after) params ->
  a = b.
Proof.
  intros Hslash Hurl.
  destruct before as [|c rest]; [discriminate|].
  cbn [prefix] in Hslash.
  destruct (ascii_dec "/" c) as [<- | Hc]; [|discriminate].
  unfold request_url in Hurl. cbv zeta in Hurl.
  cbn [append strip_leading_slash Ascii.eqb Bool.eqb] in Hurl.
  assert (Hpath : BASE_URL m ++ String "/" (rest ++ number_to_string a ++ after)
                  = BASE_URL m ++ String "/" (rest ++ number_to_string b ++ after)).
  { destruct params as [ps|]; [|exact Hurl].
    destruct (0 <? length ps)%nat; [|exact Hurl].
    exact (string_app_inv_tail _ _ _ Hurl). }
  apply string_app_inv_head in Hpath. injection Hpath as Hpath.
  apply string_app_inv_head in Hpath.
  apply string_app_inv_tail in Hpath.
  exact (number_to_string_inj a b Hpath).
Qed.

Lemma id_in_endpoint_is_injective_witness : 42%Z = 42%Z.
Proof.
  apply (id_in_endpoint_is_injective Scenario.account "/users/" "/trackables" 42 42
           (Some [("include_tasks", "true")]) eq_refl eq_refl).
Defined.

(* ================================================================== *)
(** ** The constants of the client *)
(* ================================================================== *)

Import Inverse.

Ltac Zify.zify_post_hook ::= Z.to_euclidean_division_equations.

Lemma base64_digit_read (n : N) :
  (n < 64)%N ->
  exists c, base64_digit n = String c EmptyString
            /\ sextet c = n
            /\ Ascii.eqb c "=" = false.
Proof.
  intros Hn. destruct n as [|p]; [eexists; repeat split|].
  do 6 (destruct p as [p|p|]; try (eexists; repeat split; fail)); lia.
Qed.

Lemma list_ind3 {A : Type} (P : list A -> Prop) :
  P [] -> (forall a, P [a]) -> (forall a b, P [a; b]) ->
  (forall a b c l, P l -> P (a :: b :: c :: l)) ->
  forall l, P l.
Proof.
  intros H0 H1 H2 H3 l.
  enough (H : P l /\ (forall a, P (a :: l)) /\ (forall a b, P (a :: b :: l)))
    by exact (proj1 H).
  induction l as [|x l [IH0 [IH1 IH2]]].
  - repeat split; auto.
  - repeat split; auto.
Qed.

Lemma base64_decode_encode (bs : list N) :
  Forall (fun b => (b < 256)%N) bs ->
  base64_decode (base64_bytes bs) = bs.
Proof.
  induction bs as [| a | a b | a b c rest IH] using list_ind3; intros Hbs.
  - reflexivity.
  - inversion Hbs as [|? ? Ha _]; subst.
    destruct (base64_digit_read (a / 4)) as [c1 [E1 [S1 _]]]; [lia|].
    destruct (base64_digit_read ((a mod 4) * 16)) as [c2 [E2 [S2 _]]]; [lia|].
    cbn [base64_bytes]. rewrite E1, E2.
    cbn [append base64_decode Ascii.eqb Bool.eqb].
    rewrite S1, S2. f_equal. lia.
  - inversion Hbs as [|? ? Ha Hbs']; subst.
    inversion Hbs' as [|? ? Hb _]; subst.
    destruct (base64_digit_read (a / 4)) as [c1 [E1 [S1 _]]]; [lia|].
    destruct (base64_digit_read ((a mod 4) * 16 + b / 16)) as [c2 [E2 [S2 _]]]; [lia|].
    destruct (base64_digit_read ((b mod 16) * 4)) as [c3 [E3 [S3 N3]]]; [lia|].
    cbn [base64_bytes]. rewrite E1, E2, E3.
    cbn [append base64_decode]. rewrite N3.
    cbn [Ascii.eqb Bool.eqb]. rewrite S1, S2, S3.
    f_equal; [lia|]. f_equal. lia.
  - inversion Hbs as [|? ? Ha Hbs1]; subst.
    inversion Hbs1 as [|? ? Hb Hbs2]; subst.
    inversion Hbs2 as [|? ? Hc Hrest]; subst.
    destruct (base64_digit_read (a / 4)) as [c1 [E1 [S1 _]]]; [lia|].
    destruct (base64_digit_read ((a mod 4) * 16 + b / 16)) as [c2 [E2 [S2 _]]]; [lia|].
    destruct (base64_digit_read ((b mod 16) * 4 + c / 64)) as [c3 [E3 [S3 N3]]]; [lia|].
    destruct (base64_digit_read (c mod 64)) as [c4 [E4 [S4 N4]]]; [lia|].
    change (base64_bytes (a :: b :: c :: rest))
      with (base64_digit (a / 4) ++ base64_digit ((a mod 4) * 16 + b / 16)
              ++ base64_digit ((b mod 16) * 4 + c / 64) ++ base64_digit (c mod 64)
              ++ base64_bytes rest).
    rewrite E1, E2, E3, E4. cbn [append base64_decode].
    rewrite N3, N4, S1, S2, S3, S4, (IH Hrest).
    f_equal; [lia|]. f_equal; [lia|]. f_equal. lia.
Qed.

Lemma base64_inj (s t : string) : base64 s = base64 t -> s = t.
Proof.
  unfold base64. intros H.
  assert (Hbytes : forall u, Forall (fun b => (b < 256)%N)
                               (map N_of_ascii (list_ascii_of_string u))).
  { intros u. apply Forall_forall. intros b Hb. apply in_map_iff in Hb.
    destruct Hb as [c [<- _]]. apply N_ascii_bounded. }
  apply (f_equal base64_decode) in H.
  rewrite !base64_decode_encode in H by apply Hbytes.
  apply (f_equal (map ascii_of_N)) in H.
  rewrite !map_map in H.
  assert (Hid : forall l : list ascii, map (fun c => ascii_of_N (N_of_ascii c)) l = l).
  { intros l. induction l as [|c l IH]; cbn [map];
      [reflexivity | rewrite ascii_N_embedding, IH; reflexivity]. }
  rewrite !Hid in H.
  rewrite <- (string_of_list_ascii_of_string s), <- (string_of_list_ascii_of_string t), H.
  reflexivity.
Qed.

(** X7. The header of authorization and the base URL hold the two
    credentials without loss: two application passwords give the same
    [Authorization] header only when they are equal, and two account ids the
    same base URL only when they are equal. *)
Theorem credentials_are_determined (m1 m2 : constants) :
  (AUTH_HEADER m1 = AUTH_HEADER m2 <-> TT_APP_PASSWORD m1 = TT_APP_PASSWORD m2)
  /\ (BASE_URL m1 = BASE_URL m2 <-> TT_ACCOUNT_ID m1 = TT_ACCOUNT_ID m2).
Proof.
  split; split.
  - unfold AUTH_HEADER. intros H.
    apply string_app_inv_head in H. apply base64_inj in H.
    exact (string_app_inv_head _ _ _ H).
  - unfold AUTH_HEADER. intros ->. reflexivity.
  - unfold BASE_URL. intros H. exact (string_app_inv_head _ _ _ H).
  - unfold BASE_URL. intros ->. reflexivity.
Qed.

Lemma credentials_are_determined_witness :
  TT_APP_PASSWORD Scenario.account
  = TT_APP_PASSWORD {| TT_APP_PASSWORD := "app-password"; TT_ACCOUNT_ID := "67890" |}.
Proof.
  apply (proj1 (proj1 (credentials_are_determined Scenario.account
                         {| TT_APP_PASSWORD := "app-password"; TT_ACCOUNT_ID := "67890" |}))).
  reflexivity.
Defined.

(* ================================================================== *)
(** ** The leading slash of an endpoint *)
(* ================================================================== *)

(** C10 (as stated fails). For an endpoint that itself begins with a slash,
    one more slash in front changes the URL, and with it the call: of the two
    slashes one stays. *)
Lemma request_url_slashed_endpoint_differs :
  request_url Scenario.account ("/" ++ "/x") None
    = "https://app.trackingtime.co/api/v4/12345//x"
  /\ request_url Scenario.account "/x" None
     = "https://app.trackingtime.co/api/v4/12345/x"
  /\ request_url Scenario.account ("/" ++ "/x") None
     <> request_url Scenario.account "/x" None
  /\ apiRequest Scenario.account
       (Scenario.serve "https://app.trackingtime.co/api/v4/12345/x"
          (Scenario.json_response 200
             (Scenario.envelope 200 (Some "ok") Scenario.demo_projects)))
       "GET" "/x" None None
     = Return Scenario.demo_projects
  /\ apiRequest Scenario.account
       (Scenario.serve "https://app.trackingtime.co/api/v4/12345/x"
          (Scenario.json_response 200
             (Scenario.envelope 200 (Some "ok") Scenario.demo_projects)))
       "GET" ("/" ++ "/x") None None
     = Throw (TrackingTimeError 0 "Network error: fetch failed").
Proof.
  split; [reflexivity|]. split; [reflexivity|]. split; [discriminate|].
  split; reflexivity.
Qed.

(** The URL of an endpoint that begins with [p] after at most one slash. *)
Lemma request_url_of_path m (endpoint p : string)
    (params : option (list (string * string))) :
  strip_leading_slash endpoint = p ->
  request_url m endpoint params
  = BASE_URL m ++ "/" ++ p
      ++ match params with
         | Some (q :: qs) => "?" ++ URLSearchParams_toString (q :: qs)
         | _ => EmptyString
         end.
Proof.
  intros <-. unfold request_url. cbv zeta.
  destruct params as [[|q qs]|]; cbn [length Nat.ltb Nat.leb];
    rewrite ?string_app_assoc, ?string_app_empty_r; reflexivity.
Qed.

(** C10 (as amended). For an endpoint [p] that does not itself begin with a
    slash, the URL built for ["/" ++ p] and the URL built for [p] are the same
    one: the base URL, a slash, [p], and the query string after a question
    mark when there are parameters. [apiRequest] and [rawApiRequest] ask
    [fetch] for that URL in both cases, so whatever the method, the
    parameters and the body, they end the same way for both endpoints.
    Exactly one slash is taken off: for ["//" ++ p] one slash stays in the
    URL. *)
Theorem request_url_leading_slash m (p : string) :
  prefix "/" p = false ->
  (forall params,
      request_url m ("/" ++ p) params
        = BASE_URL m ++ "/" ++ p
            ++ match params with
               | Some (q :: qs) => "?" ++ URLSearchParams_toString (q :: qs)
               | _ => EmptyString
               end
      /\ request_url m p params = request_url m ("/" ++ p) params
      /\ request_url m ("/" ++ "/" ++ p) params
         = BASE_URL m ++ "/" ++ "/" ++ p
             ++ match params with
                | Some (q :: qs) => "?" ++ URLSearchParams_toString (q :: qs)
                | _ => EmptyString
                end)
  /\ (forall fetch fetch' method params body,
         fetch (BASE_URL m ++ "/" ++ p
                  ++ match params with
                     | Some (q :: qs) => "?" ++ URLSearchParams_toString (q :: qs)
                     | _ => EmptyString
                     end)
           (request_options m method body)
         = fetch' (BASE_URL m ++ "/" ++ p
                     ++ match params with
                        | Some (q :: qs) => "?" ++ URLSearchParams_toString (q :: qs)
                        | _ => EmptyString
                        end)
             (request_options m method body) ->
         apiRequest m fetch method ("/" ++ p) params body
           = apiRequest m fetch' method p params body)
  /\ (forall fetch fetch' method params,
         fetch (BASE_URL m ++ "/" ++ p
                  ++ match params with
                     | Some (q :: qs) => "?" ++ URLSearchParams_toString (q :: qs)
                     | _ => EmptyString
                     end)
           (base_options m method)
         = fetch' (BASE_URL m ++ "/" ++ p
                     ++ match params with
                        | Some (q :: qs) => "?" ++ URLSearchParams_toString (q :: qs)
                        | _ => EmptyString
                        end)
             (base_options m method) ->
         rawApiRequest m fetch method ("/" ++ p) params
           = rawApiRequest m fetch' method p params).
Proof.
  intros Hp.
  pose proof (strip_leading_slash_none p Hp) as Hnone.
  split; [|split].
  - intros params.
    rewrite (request_url_of_path m ("/" ++ p) p params (strip_leading_slash_added p)).
    rewrite (request_url_of_path m p p params Hnone).
    split; [reflexivity|]. split; [reflexivity|].
    rewrite (request_url_of_path m ("/" ++ "/" ++ p) ("/" ++ p) params eq_refl).
    rewrite !string_app_assoc. reflexivity.
  - intros fetch fetch' method params body Hsame.
    unfold apiRequest.
    rewrite (request_url_of_path m ("/" ++ p) p params (strip_leading_slash_added p)).
    rewrite (request_url_of_path m p p params Hnone).
    rewrite Hsame. reflexivity.
  - intros fetch fetch' method params Hsame.
    unfold rawApiRequest.
    rewrite (request_url_of_path m ("/" ++ p) p params (strip_leading_slash_added p)).
    rewrite (request_url_of_path m p p params Hnone).
    rewrite Hsame. reflexivity.
Qed.

Lemma request_url_leading_slash_witness :
  request_url Scenario.account "/events/export" (Some [("separator", ";")])
    = "https://app.trackingtime.co/api/v4/12345/events/export?separator=%3B"
  /\ request_url Scenario.account "events/export" (Some [("separator", ";")])
     = request_url Scenario.account "/events/export" (Some [("separator", ";")])
  /\ apiRequest Scenario.account
       (Scenario.serve "https://app.trackingtime.co/api/v4/12345/projects"
          (Scenario.json_response 200
             (Scenario.envelope 200 (Some "ok") Scenario.demo_projects)))
       "GET" "/projects" None None
     = apiRequest Scenario.account
         (Scenario.serve "https://app.trackingtime.co/api/v4/12345/projects"
            (Scenario.json_response 200
               (Scenario.envelope 200 (Some "ok") Scenario.demo_projects)))
         "GET" "projects" None None.
Proof.
  destruct (request_url_leading_slash Scenario.account "events/export" eq_refl)
    as [Hurl _].
  destruct (Hurl (Some [("separator", ";")])) as [Hslashed [Hbare _]].
  destruct (request_url_leading_slash Scenario.account "projects" eq_refl)
    as [_ [Hcall _]].
  split; [exact Hslashed|]. split; [exact Hbare|].
  apply Hcall. reflexivity.
Defined.

(* ================================================================== *)
(** ** Bodies that are no envelope *)
(* ================================================================== *)

Import Wire.

Lemma as_TTResponse_throws (v : value) (e : thrown) :
  as_TTResponse v = Some (Throw e) ->
  (nullish v = true /\ read v "response" = Throw e)
  \/ (nullish v = false /\ nullish (own_field v "response") = true
      /\ read (own_field v "response") "status" = Throw e).
Proof.
  unfold as_TTResponse, read.
  destruct (nullish v) eqn:Hv.
  - intros H. injection H as <-. left. split; reflexivity.
  - destruct (nullish (own_field v "response")) eqn:Hr.
    + intros H. injection H as <-. right. repeat split.
    + destruct (own_field (own_field v "response") "status"); try discriminate.
      destruct (own_field (own_field v "response") "message"); discriminate.
Qed.

Lemma as_TTResponse_returns (v : value) (env : TTResponse) :
  as_TTResponse v = Some (Return env) ->
  nullish v = false
  /\ nullish (own_field v "response") = false
  /\ own_field (own_field v "response") "status" = VNum (status (response env))
  /\ data env = own_field v "data".
Proof.
  unfold as_TTResponse, read.
  destruct (nullish v) eqn:Hv; [discriminate|].
  destruct (nullish (own_field v "response")) eqn:Hr; [discriminate|].
  destruct (own_field (own_field v "response") "status") as [| | b | n | s | l | f];
    try discriminate.
  destruct (own_field (own_field v "response") "message"); try discriminate;
    intros H; injection H as <-; repeat split.
Qed.

(** What the exchange was, from the response the client sees. *)
Lemma typed_outcome_rejected (o : completion WireResponse) (err : thrown) :
  typed_outcome o = Some (Throw err) -> o = Throw err.
Proof.
  destruct o as [w | e]; cbn [typed_outcome].
  - destruct (typed w); discriminate.
  - intros H. injection H as <-. reflexivity.
Qed.

Lemma typed_outcome_fulfilled (o : completion WireResponse) (res : Response) :
  typed_outcome o = Some (Return res) ->
  exists w,
    o = Return w
    /\ res_status res = wire_status w
    /\ content_type res = wire_content_type w
    /\ (forall e, res_json res = Throw e ->
          wire_json w = Throw e
          \/ exists v, wire_json w = Return v /\ as_TTResponse v = Some (Throw e))
    /\ (forall env, res_json res = Return env ->
          exists v, wire_json w = Return v /\ as_TTResponse v = Some (Return env)).
Proof.
  destruct o as [w | e]; cbn [typed_outcome]; [|discriminate].
  unfold typed.
  destruct (wire_json w) as [v | e] eqn:Hjson.
  - destruct (as_TTResponse v) as [c|] eqn:Hcast; [|discriminate].
    intros H. injection H as <-. exists w. cbn [res_status content_type res_json].
    repeat split.
    + intros e ->. right. exists v. split; [exact Hjson | exact Hcast].
    + intros env ->. exists v. split; [exact Hjson | exact Hcast].
  - intros H. injection H as <-. exists w. cbn [res_status content_type res_json].
    repeat split.
    + intros e' H. injection H as <-. left. exact Hjson.
    + intros env H. discriminate H.
Qed.

(** X2. For an exchange whose body, when it parses, is an envelope of the
    declared type or has no [response] object at all, whatever [apiRequest]
    throws is of one of five kinds: a [TrackingTimeError] of status 0 after
    [fetch] rejected; a [TrackingTimeError] of the HTTP status for a content
    type that is not JSON; the rejection of [res.json()], passed on as it is;
    the [TypeError] of line 100 for a body that parsed but is [null] or has
    no [response] object, passed on as it is; or a [TrackingTimeError] of
    the envelope's status, which is then a number other than 200. The
    message of each [TrackingTimeError] is not empty. *)
Theorem apiRequest_failure_kinds m fetch
    (wire : string -> RequestInit -> completion WireResponse)
    method endpoint params body e :
  typed_outcome (wire (request_url m endpoint params) (request_options m method body))
    = Some (fetch (request_url m endpoint params) (request_options m method body)) ->
  apiRequest m fetch method endpoint params body = Throw e ->
  (exists err msg,
      wire (request_url m endpoint params) (request_options m method body) = Throw err
      /\ e = TrackingTimeError 0 msg /\ msg <> EmptyString)
  \/ (exists w msg,
         wire (request_url m endpoint params) (request_options m method body) = Return w
         /\ includes "application/json"
              (match wire_content_type w with Some c => c | None => EmptyString end) = false
         /\ e = TrackingTimeError (wire_status w) msg /\ msg <> EmptyString)
  \/ (exists w,
         wire (request_url m endpoint params) (request_options m method body) = Return w
         /\ wire_json w = Throw e)
  \/ (exists w v msg,
         wire (request_url m endpoint params) (request_options m method body) = Return w
         /\ wire_json w = Return v
         /\ (nullish v = true \/ nullish (own_field v "response") = true)
         /\ e = Error "TypeError" msg)
  \/ (exists w v s msg,
         wire (request_url m endpoint params) (request_options m method body) = Return w
         /\ wire_json w = Return v
         /\ own_field (own_field v "response") "status" = VNum s
         /\ s <> 200%Z
         /\ e = TrackingTimeError s msg /\ msg <> EmptyString).
Proof.
  intros Hwire Hthrow.
  destruct (apiRequest_throw_cases _ _ _ _ _ _ _ Hthrow)
    as [[err [msg [Hf [He Hm]]]]
       | [[res [msg [Hf [Hct [He Hm]]]]]
         | [[res [Hf [Hct Hj]]]
           | [res [env [msg [Hf [Hj [Hs [He Hm]]]]]]]]]];
    rewrite Hf in Hwire.
  - left. exists err, msg. split; [exact (typed_outcome_rejected _ _ Hwire)|].
    split; assumption.
  - destruct (typed_outcome_fulfilled _ _ Hwire) as [w [Hw [Hst [Hty _]]]].
    right. left. exists w, msg. rewrite <- Hty, <- Hst. repeat split; assumption.
  - destruct (typed_outcome_fulfilled _ _ Hwire) as [w [Hw [_ [_ [Hthrown _]]]]].
    destruct (Hthrown e Hj) as [Hparse | [v [Hv Hcast]]].
    + right. right. left. exists w. split; assumption.
    + right. right. right. left.
      destruct (as_TTResponse_throws v e Hcast) as [[Hnull Hread] | [_ [Hnull Hread]]];
        unfold read in Hread; rewrite Hnull in Hread; injection Hread as <-;
        exists w, v; eexists; repeat split; try assumption; auto.
  - destruct (typed_outcome_fulfilled _ _ Hwire) as [w [Hw [_ [_ [_ Hret]]]]].
    destruct (Hret env Hj) as [v [Hv Hcast]].
    destruct (as_TTResponse_returns v env Hcast) as [_ [_ [Hstatus _]]].
    right. right. right. right. exists w, v, (status (response env)), msg.
    repeat split; assumption.
Qed.

Lemma apiRequest_failure_kinds_witness :
  exists w v msg,
    Wire.serve "https://app.trackingtime.co/api/v4/12345/projects"
      (json_body 200 (VObj []))
      (request_url Scenario.account "/projects" None)
      (request_options Scenario.account "GET" None) = Return w
    /\ wire_json w = Return v
    /\ (nullish v = true \/ nullish (own_field v "response") = true)
    /\ Error "TypeError" "Cannot read properties of undefined (reading 'status')"
       = Error "TypeError" msg.
Proof.
  destruct (apiRequest_failure_kinds Scenario.account
              (Scenario.serve "https://app.trackingtime.co/api/v4/12345/projects"
                 {| res_status := 200;
                    content_type := Some "application/json";
                    res_text := Throw (Error "TypeError"
                                         "Body is unusable: Body has already been read");
                    res_json := Throw (Error "TypeError"
                                         "Cannot read properties of undefined (reading 'status')") |})
              (Wire.serve "https://app.trackingtime.co/api/v4/12345/projects"
                 (json_body 200 (VObj [])))
              "GET" "/projects" None None
              (Error "TypeError" "Cannot read properties of undefined (reading 'status')")
              eq_refl eq_refl)
    as [[err [msg [Hf _]]]
       | [[w [msg [_ [_ [He _]]]]]
         | [[w [Hf Hj]]
           | [[w [v [msg [Hf [Hj [Hnull He]]]]]]
             | [w [v [s [msg [_ [_ [_ [_ [He _]]]]]]]]]]]]].
  - discriminate Hf.
  - discriminate He.
  - injection Hf as <-. discriminate Hj.
  - exists w, v, msg. repeat split; assumption.
  - discriminate He.
Defined.

(** X10. For an exchange whose body, when it parses, is an envelope of the
    declared type or has no [response] object at all, the text of an error
    result is ["TrackingTime API error (<status>): <message>"] with a message
    that is not empty, or what [formatError] makes of the rejection of
    [res.json()], or, for a body that parsed but is [null] or has no
    [response] object, the message of the [TypeError] of line 100, with no
    prefix. *)
Theorem error_text_seen_by_caller m fetch
    (wire : string -> RequestInit -> completion WireResponse)
    (t : tool) (args : arguments t) (r : CallToolResult) :
  typed_outcome
    (wire (request_url m (call_endpoint (request t args)) (call_params (request t args)))
       (request_options m (call_method (request t args)) (call_body (request t args))))
    = Some (fetch (request_url m (call_endpoint (request t args))
                     (call_params (request t args)))
              (request_options m (call_method (request t args))
                 (call_body (request t args)))) ->
  invoke m fetch t args = Return r ->
  isError r = Some true ->
  exists txt,
    content r = [ {| type := "text"; text := Some txt |} ]
    /\ ((exists s msg,
            txt = "TrackingTime API error (" ++ number_to_string s ++ "): " ++ msg
            /\ msg <> EmptyString)
        \/ (exists w e,
               wire (request_url m (call_endpoint (request t args))
                       (call_params (request t args)))
                 (request_options m (call_method (request t args))
                    (call_body (request t args))) = Return w
               /\ wire_json w = Throw e
               /\ txt = formatError e)
        \/ (exists w v,
               wire (request_url m (call_endpoint (request t args))
                       (call_params (request t args)))
                 (request_options m (call_method (request t args))
                    (call_body (request t args))) = Return w
               /\ wire_json w = Return v
               /\ (read v "response" = Throw (Error "TypeError" txt)
                   \/ read (own_field v "response") "status"
                      = Throw (Error "TypeError" txt)))).
Proof.
  intros Hwire. unfold invoke, handler. cbv zeta.
  destruct (apiRequest m fetch (call_method (request t args)) (call_endpoint (request t args))
              (call_params (request t args)) (call_body (request t args)))
    as [d | e] eqn:Hreq; cbn [bind try_catch]; intros Hr; injection Hr as <-.
  - cbn. discriminate.
  - intros _. exists (formatError e). split; [reflexivity|].
    destruct (apiRequest_throws_typed_or_parse _ _ _ _ _ _ _ Hreq)
      as [[s [msg [-> Hmsg]]] | [res [Hfetch Hbody]]].
    + left. exists s, msg. split; [reflexivity | exact Hmsg].
    + rewrite Hfetch in Hwire.
      destruct (typed_outcome_fulfilled _ _ Hwire) as [w [Hw [_ [_ [Hthrown _]]]]].
      destruct (Hthrown e Hbody) as [Hparse | [v [Hv Hcast]]].
      * right. left. exists w, e. repeat split; assumption.
      * right. right. exists w, v. split; [exact Hw|]. split; [exact Hv|].
        destruct (as_TTResponse_throws v e Hcast) as [[Hnull Hread] | [_ [Hnull Hread]]];
          pose proof Hread as Hshape; unfold read in Hshape; rewrite Hnull in Hshape;
          injection Hshape as <-; [left | right]; exact Hread.
Qed.

Lemma error_text_seen_by_caller_witness :
  exists txt,
    content {| content := [ {| type := "text";
                               text := Some "Cannot read properties of undefined (reading 'status')" |} ];
               isError := Some true |}
    = [ {| type := "text"; text := Some txt |} ]
    /\ read (own_field (VObj []) "response") "status" = Throw (Error "TypeError" txt).
Proof.
  destruct (error_text_seen_by_caller Scenario.account
              (Scenario.serve "https://app.trackingtime.co/api/v4/12345/tasks/close/9"
                 {| res_status := 200;
                    content_type := Some "application/json";
                    res_text := Throw (Error "TypeError"
                                         "Body is unusable: Body has already been read");
                    res_json := Throw (Error "TypeError"
                                         "Cannot read properties of undefined (reading 'status')") |})
              (Wire.serve "https://app.trackingtime.co/api/v4/12345/tasks/close/9"
                 (json_body 200 (VObj [])))
              tt_close_task {| close_task_id := 9 |}
              {| content := [ {| type := "text";
                                 text := Some "Cannot read properties of undefined (reading 'status')" |} ];
                 isError := Some true |}
              eq_refl eq_refl eq_refl)
    as [txt [Hcontent _]].
  exists txt. split; [exact Hcontent|].
  injection Hcontent as <-. reflexivity.
Defined.
